(** * A filterable dropdown selector (Preact): model and verified properties

    The development embeds the widget of [dropdown.jsx]: the option text
    extraction, the candidate filter, the lookup of the initial value, the
    event handlers that drive the three [useState] cells, and the resizing
    of the options panel.  The current revision of the component is modelled
    at top level; the earlier revision that ships next to it lives in
    [Module Legacy]. *)

From Stdlib Require Import Bool List ZArith Ascii String Lia.
Import ListNotations.

Local Open Scope string_scope.
Local Open Scope list_scope.
Local Open Scope bool_scope.

Set Warnings "-register-all".

(* ================================================================== *)
(** * The JavaScript fragment the component relies on                  *)
(* ================================================================== *)

Module JS.

(** ** Strings

    A string is a sequence of code units.  The model covers the code
    units of the Latin-1 range (U+0000 to U+00FF), one [ascii] each; on
    that range [toLowerCase] has no context-sensitive rule and stays
    inside the range. *)

(** [WhiteSpace] and [LineTerminator] code points below U+0100: TAB, LF,
    VT, FF, CR, SPACE and NO-BREAK SPACE. *)
Definition isWhiteSpace (c : ascii) : bool :=
  let n := nat_of_ascii c in
  (((9 <=? n) && (n <=? 13)) || (n =? 32) || (n =? 160))%nat.

(** A-Z, and U+00C0 to U+00DE without the multiplication sign U+00D7,
    move up by 32; every other code unit is its own lower case. *)
Definition toLowerCaseChar (c : ascii) : ascii :=
  let n := nat_of_ascii c in
  if (((65 <=? n) && (n <=? 90))
      || ((192 <=? n) && (n <=? 222) && negb (n =? 215)))%nat
  then ascii_of_nat (n + 32)
  else c.

(** [String.prototype.toLowerCase] *)
Fixpoint toLowerCase (s : string) : string :=
  match s with
  | EmptyString => EmptyString
  | String c s' => String (toLowerCaseChar c) (toLowerCase s')
  end.

(** [String.prototype.trimStart] *)
Fixpoint trimStart (s : string) : string :=
  match s with
  | EmptyString => EmptyString
  | String c s' => if isWhiteSpace c then trimStart s' else s
  end.

(** [String.prototype.trimEnd] *)
Fixpoint trimEnd (s : string) : string :=
  match s with
  | EmptyString => EmptyString
  | String c s' =>
      match trimEnd s' with
      | EmptyString => if isWhiteSpace c then EmptyString
                       else String c EmptyString
      | r => String c r
      end
  end.

(** [String.prototype.trim] *)
Definition trim (s : string) : string := trimEnd (trimStart s).

(** [s.includes(search)]: [search] starts at some position of [s]. *)
Fixpoint includes (s search : string) : bool :=
  String.prefix search s
  || match s with
     | EmptyString => false
     | String _ s' => includes s' search
     end.

(** [strings.join('')] on an array of strings *)
Definition join (l : list string) : string := String.concat "" l.

(** ** Exceptions

    The only exception the component can raise by itself is the
    [TypeError] of a property read on [undefined] or [null], or of a call
    of something that is not a function. *)

Inductive result (A : Type) : Type :=
| Ok (a : A)
| TypeError.
Arguments Ok {A} a.
Arguments TypeError {A}.

Definition bind {A B} (r : result A) (k : A -> result B) : result B :=
  match r with
  | Ok a => k a
  | TypeError => TypeError
  end.

(** [array.forEach(callback)], for a callback that updates captured
    variables of type [S]; an exception in the callback ends the loop. *)
Fixpoint forEach {A S} (callback : S -> A -> result S)
         (array : list A) (captured : S) : result S :=
  match array with
  | [] => Ok captured
  | c :: rest => bind (callback captured c) (forEach callback rest)
  end.

(** ** Values *)

(** The listener found in a node's [onMouseDown] property. *)
Inductive listener : Type :=
| handleClickListener   (* the [handleClick] closure of FilteredChildren *)
| otherListener.        (* any listener supplied by the caller *)

(** The values that reach the component as children, props and event
    fields.  [VNode] is a virtual DOM node: it always carries a [props]
    object, of which the model keeps [value] (a string when the attribute
    is given), [className], [onMouseDown] and [children]; [None] stands
    for a property that is [undefined].  Numbers are left out. *)
Inductive jsvalue : Type :=
| JUndefined
| JNull
| JBool (b : bool)
| JStr (s : string)
| JArr (items : list jsvalue)
| VNode (value : option string) (className : option string)
        (onMouseDown : option listener) (children : jsvalue).

(** ToBoolean *)
Definition truthy (v : jsvalue) : bool :=
  match v with
  | JUndefined | JNull => false
  | JBool b => b
  | JStr s => negb (s =? "")
  | JArr _ | VNode _ _ _ _ => true
  end.

(** [a || b] *)
Definition or_else (a b : jsvalue) : jsvalue := if truthy a then a else b.

(** [Array.isArray] *)
Definition isArray (v : jsvalue) : bool :=
  match v with JArr _ => true | _ => false end.

(** [v === ""] *)
Definition is_empty_string (v : jsvalue) : bool :=
  match v with JStr s => s =? "" | _ => false end.

(** The string a class name contributes to [className + ' ' + ...]. *)
Definition className_to_string (c : option string) : string :=
  match c with Some s => s | None => "undefined" end.

(** [a === b] on two values that are a string or [undefined]. *)
Definition strict_eq (a b : option string) : bool :=
  match a, b with
  | Some x, Some y => x =? y
  | None, None => true
  | _, _ => false
  end.

End JS.

Export JS.

Notation "x <- r ;; k" := (bind r (fun x => k))
  (at level 61, r at next level, right associativity).

(* ================================================================== *)
(** * The component                                                    *)
(* ================================================================== *)

(** ** Option text *)

(** [textContent(elem)]: the text of a node and of its descendants.  A
    falsy [elem] gives [''], a string gives itself; any other value is
    asked for [elem.props && elem.props.children], which is [undefined]
    (hence ['']) unless [elem] is a node. *)
Fixpoint textContent (elem : jsvalue) : string :=
  match elem with
  | JStr s => s
  | VNode _ _ _ children =>
      match children with
      | JArr items => join (map textContent items)
      | _ => textContent children
      end
  | _ => ""
  end.

(** ** The [state] object of one render *)

(** [state.onChange] and [state.alwaysExpanded] are kept by their
    truthiness: whether a callback was supplied, and whether the
    [expanded] prop was set.  [expanded], [filter] and [value] are the
    three [useState] cells. *)
Record State : Type := mkState {
  onChange : bool;
  alwaysExpanded : bool;
  expanded : bool;
  filter : string;
  value : jsvalue
}.

(** ** Candidate filtering *)

(** [cloneElement(c, { onMouseDown: handleClick,
                       className: c.props.className + ' ' + style.option })].
    The argument reads [c.props.className]: on [null] and [undefined] the
    read of [props] raises, on any other value that is not a node [props]
    is [undefined] and the read of [className] raises.  [style_option] is
    the class name [style.option] of the imported style sheet. *)
Definition cloneOption (style_option : string) (c : jsvalue) : result jsvalue :=
  match c with
  | VNode v cls _ ch =>
      Ok (VNode v
                (Some (className_to_string cls ++ " " ++ style_option)%string)
                (Some handleClickListener)
                ch)
  | _ => TypeError
  end.

(** The callback of [children.forEach] in FilteredChildren; [options] is
    the array it pushes to. *)
Definition FilteredChildren_each (style_option : string) (state : State)
           (disableFiltering : bool)
           (options : list jsvalue) (c : jsvalue) : result (list jsvalue) :=
  let compare := textContent c in
  if includes compare (trim (toLowerCase (filter state))) || disableFiltering
  then childClone <- cloneOption style_option c ;;
       Ok (options ++ [childClone])
  else Ok options.

(** [FilteredChildren({children, state, disableFiltering})] *)
Definition FilteredChildren (style_option : string) (children : jsvalue)
           (state : State) (disableFiltering : bool) : result (list jsvalue) :=
  match children with
  | JArr items =>
      if (List.length items <? 1)%nat then Ok []
      else forEach (FilteredChildren_each style_option state disableFiltering)
                   items []
  | _ => Ok []
  end.

(** ** Lookup of the initial value *)

(** The object [{child, text}] that findChildByValue returns. *)
Record RetVal : Type := mkRetVal {
  child : option jsvalue;
  text : string
}.

(** The callback of [children.forEach] in findChildByValue.  [!c.props]
    raises on [null] and [undefined], and is true on every other value
    that is not a node. *)
Definition findChildByValue_each (value : option string)
           (retVal : RetVal) (c : jsvalue) : result RetVal :=
  match c with
  | JUndefined | JNull => TypeError
  | VNode v _ _ _ =>
      if strict_eq v value
      then Ok {| child := Some c; text := textContent c |}
      else Ok retVal
  | _ => Ok retVal
  end.

(** [findChildByValue(children, value)] *)
Definition findChildByValue (children : jsvalue) (value : option string)
  : result RetVal :=
  match children with
  | JArr items =>
      if (List.length items <? 1)%nat then Ok {| child := None; text := "" |}
      else forEach (findChildByValue_each value) items
                   {| child := None; text := "" |}
  | _ => Ok {| child := None; text := "" |}
  end.

(** [if(value) ...]: the prop is a string or is missing. *)
Definition value_truthy (value : option string) : bool :=
  match value with
  | Some s => negb (s =? "")
  | None => false
  end.

(** The [initialFilter] that Dropdown computes before its first render. *)
Definition initialFilter (children : jsvalue) (value : option string)
  : result string :=
  if value_truthy value
  then retVal <- findChildByValue children value ;; Ok (text retVal)
  else Ok "".

(** ** Geometry of the options panel *)

(** The arithmetic of JavaScript numbers, as far as [resizeToBounds] uses
    it: literals, [+], [-] and [>].  No law is assumed of it, so that
    what is proved holds for IEEE doubles as well as for whole pixels. *)
Class JSNumber (num : Type) : Type := {
  lit : Z -> num;
  add : num -> num -> num;
  sub : num -> num -> num;
  gtb : num -> num -> bool
}.

(** Whole pixels.  The code computes in doubles, whose sums and
    differences are exact on integers as long as the operands and the
    result stay below 2^53 in absolute value: on such measures, and only
    there, the integers compute what the code computes. *)
#[export] Instance JSNumber_Z : JSNumber Z := {|
  lit := fun z => z;
  add := Z.add;
  sub := Z.sub;
  gtb := Z.gtb
|}.

(** The string assigned to a length of [domElement.options.style]. *)
Inductive css_length (num : Type) : Type :=
| css_empty             (* [''] : no inline length, the natural size *)
| css_px (n : num).     (* [n + "px"] *)
Arguments css_empty {num}.
Arguments css_px {num} n.

(** What [resizeToBounds] reads and writes.  The four measures are what
    the browser reports when the function runs; they are inputs, which a
    write to the style leaves as they are.  The two style fields hold the
    last strings assigned. *)
Record Dom (num : Type) : Type := mkDom {
  input_width : num;           (* input.getBoundingClientRect().width *)
  options_y : num;             (* options.getBoundingClientRect().y *)
  options_scrollHeight : num;  (* options.scrollHeight *)
  window_innerHeight : num;    (* window.innerHeight *)
  options_style_width : css_length num;
  options_style_height : css_length num
}.
Arguments mkDom {num}.
Arguments input_width {num}.
Arguments options_y {num}.
Arguments options_scrollHeight {num}.
Arguments window_innerHeight {num}.
Arguments options_style_width {num}.
Arguments options_style_height {num}.

Definition set_style_width {num} (d : Dom num) (w : css_length num) : Dom num :=
  mkDom (input_width d) (options_y d) (options_scrollHeight d)
        (window_innerHeight d) w (options_style_height d).

Definition set_style_height {num} (d : Dom num) (h : css_length num) : Dom num :=
  mkDom (input_width d) (options_y d) (options_scrollHeight d)
        (window_innerHeight d) (options_style_width d) h.

(** [resizeToBounds()] *)
Definition resizeToBounds {num} `{JSNumber num} (d : Dom num) : Dom num :=
  let inputBBox_width := input_width d in
  let optionsBBox_y := options_y d in
  let height := options_scrollHeight d in
  let d := set_style_width d (css_px (sub inputBBox_width (lit 1))) in
  if gtb (add height optionsBBox_y) (sub (window_innerHeight d) (lit 10))
  then set_style_height d
         (css_px (sub (sub (window_innerHeight d) (lit 10)) optionsBBox_y))
  else set_style_height d css_empty.

(** ** Event handlers *)

(** What a handler acts on: the values the [useState] cells will have at
    the next render ([hooks]; the props kept in [State] are never
    written), the arguments [onChange] was called with, oldest first, and
    the panel. *)
Record World (num : Type) : Type := mkWorld {
  hooks : State;
  emitted : list jsvalue;
  dom : Dom num
}.
Arguments mkWorld {num}.
Arguments hooks {num}.
Arguments emitted {num}.
Arguments dom {num}.

(** The fields of [evt.target] that [handleClick] reads. *)
Record Target : Type := mkTarget {
  target_value : jsvalue;             (* evt.target.value *)
  attribute_value : option string;    (* the [value] attribute, if any *)
  innerText : string                  (* evt.target.innerText *)
}.

(** [evt.target.getAttribute('value')]: [null] without the attribute. *)
Definition getAttribute_value (t : Target) : jsvalue :=
  match attribute_value t with
  | Some s => JStr s
  | None => JNull
  end.

Section Handlers.

Context {num : Type} `{JSNumber num}.

(** A handler is a sequence of statements, each a change of the world.
    It was created by a render and reads [state.expanded], [state.filter]
    and [state.value] from the [state] object of that render. *)
Definition Handler : Type := World num -> World num.

Definition skip : Handler := fun w => w.

Definition seq (h1 h2 : Handler) : Handler := fun w => h2 (h1 w).

Definition setExpanded (b : bool) : Handler := fun w =>
  let s := hooks w in
  mkWorld (mkState (onChange s) (alwaysExpanded s) b (filter s) (value s))
          (emitted w) (dom w).

Definition setFilter (t : string) : Handler := fun w =>
  let s := hooks w in
  mkWorld (mkState (onChange s) (alwaysExpanded s) (expanded s) t (value s))
          (emitted w) (dom w).

Definition setValue (v : jsvalue) : Handler := fun w =>
  let s := hooks w in
  mkWorld (mkState (onChange s) (alwaysExpanded s) (expanded s) (filter s) v)
          (emitted w) (dom w).

(** [state.onChange(v)] *)
Definition call_onChange (v : jsvalue) : Handler := fun w =>
  mkWorld (hooks w) (emitted w ++ [v]) (dom w).

(** [resizeToBounds()] as a statement *)
Definition call_resizeToBounds : Handler := fun w =>
  mkWorld (hooks w) (emitted w) (resizeToBounds (dom w)).

Local Notation "h1 ;; h2" := (seq h1 h2)
  (at level 61, right associativity).

(** [handleInputChange(evt)], the listener of both [onInput] and
    [onFocus]; [evt_target_value] is the text of the input. *)
Definition handleInputChange (state : State) (evt_target_value : string)
  : Handler :=
  (if negb (evt_target_value =? "") || alwaysExpanded state
   then setExpanded true
   else setExpanded false) ;;
  setExpanded true ;;
  setFilter evt_target_value ;;
  call_resizeToBounds.

(** The [onClick] listener of the clear button. *)
Definition btn_clear_onClick (state : State) : Handler :=
  (if negb (filter state =? "") then setFilter "" else skip) ;;
  (if negb (is_empty_string (value state))
   then setValue (JStr "") ;;
        (if onChange state then call_onChange (JStr "") else skip)
   else skip).

(** [handleClick(evt)], the [onMouseDown] listener of every candidate. *)
Definition handleClick (state : State) (evt_target : Target) : Handler :=
  let value := or_else (target_value evt_target)
                       (getAttribute_value evt_target) in
  setValue value ;;
  setFilter (innerText evt_target) ;;
  setExpanded false ;;
  (if onChange state then call_onChange value else skip).

(** An event reaches the listeners of the latest render: the [state]
    they read is the one the cells hold. *)
Definition dispatch (listener : State -> Handler) : Handler :=
  fun w => listener (hooks w) w.

End Handlers.

(* ================================================================== *)
(** * The earlier revision of the component                            *)
(* ================================================================== *)

Module Legacy.

(** The string [Array.prototype.join] makes of one element: [''] for
    [null] and [undefined], [toString()] otherwise. *)
Fixpoint element_to_string (v : jsvalue) : string :=
  match v with
  | JUndefined | JNull => ""
  | JBool b => if b then "true" else "false"
  | JStr s => s
  | JArr items => String.concat "," (map element_to_string items)
  | VNode _ _ _ _ => "[object Object]"
  end.

(** [c.props.children.join('')]: [c] has to be a node and its children
    an array, or a read or the call raises. *)
Definition props_children_join (c : jsvalue) : result string :=
  match c with
  | VNode _ _ _ (JArr items) => Ok (join (map element_to_string items))
  | _ => TypeError
  end.

(** The callback of [children.forEach] in FilteredChildren. *)
Definition FilteredChildren_each (style_option : string) (state : State)
           (options : list jsvalue) (c : jsvalue) : result (list jsvalue) :=
  joined <- props_children_join c ;;
  if includes (trim (toLowerCase joined)) (trim (toLowerCase (filter state)))
  then childClone <- cloneOption style_option c ;;
       Ok (options ++ [childClone])
  else Ok options.

(** [FilteredChildren({children, state})]; [children.forEach] raises
    unless [children] is an array. *)
Definition FilteredChildren (style_option : string) (children : jsvalue)
           (state : State) : result (list jsvalue) :=
  match children with
  | JArr items => forEach (FilteredChildren_each style_option state) items []
  | _ => TypeError
  end.

(** The callback of [children.forEach] in findChildByValue. *)
Definition findChildByValue_each (value : option string)
           (retVal : RetVal) (c : jsvalue) : result RetVal :=
  match c with
  | VNode v _ _ _ =>
      if strict_eq v value
      then joined <- props_children_join c ;;
           Ok {| child := Some c; text := joined |}
      else Ok retVal
  | _ => TypeError
  end.

(** [findChildByValue(children, value)] *)
Definition findChildByValue (children : jsvalue) (value : option string)
  : result RetVal :=
  match children with
  | JArr items => forEach (findChildByValue_each value) items
                          {| child := None; text := "" |}
  | _ => TypeError
  end.

(** [handleInputChange(evt)]: the statements of the current revision
    without the call of resizeToBounds.  The listeners of the clear
    button and of the candidates are the same text in both revisions. *)
Definition handleInputChange {num : Type}
           (state : State) (evt_target_value : string) : World num -> World num :=
  seq (if negb (evt_target_value =? "") || alwaysExpanded state
       then setExpanded true
       else setExpanded false)
      (seq (setExpanded true) (setFilter evt_target_value)).

End Legacy.

(* ================================================================== *)
(** * Vocabulary of the statements                                     *)
(* ================================================================== *)

(** An option of the list: a node. *)
Definition is_vnode (c : jsvalue) : bool :=
  match c with VNode _ _ _ _ => true | _ => false end.

(** [null] and [undefined], on which every property read raises. *)
Definition nullish (c : jsvalue) : bool :=
  match c with JUndefined | JNull => true | _ => false end.

(** [c.props.value] and [c.props.children] of a node. *)
Definition node_value (c : jsvalue) : option string :=
  match c with VNode v _ _ _ => v | _ => None end.

Definition node_children (c : jsvalue) : jsvalue :=
  match c with VNode _ _ _ ch => ch | _ => JUndefined end.

(** The clone FilteredChildren makes of a node: the same value and
    children, the class [style.option] appended, [handleClick] attached. *)
Definition with_listener (style_option : string) (c : jsvalue) : jsvalue :=
  match c with
  | VNode v cls _ ch =>
      VNode v (Some (className_to_string cls ++ " " ++ style_option)%string)
            (Some handleClickListener) ch
  | _ => c
  end.

(** The test FilteredChildren applies to one child. *)
Definition passes (state : State) (disableFiltering : bool) (c : jsvalue) : bool :=
  includes (textContent c) (trim (toLowerCase (filter state)))
  || disableFiltering.

(** The test of the earlier revision, on the joined children of a node. *)
Definition legacy_passes (state : State) (c : jsvalue) : bool :=
  match Legacy.props_children_join c with
  | Ok joined =>
      includes (trim (toLowerCase joined)) (trim (toLowerCase (filter state)))
  | TypeError => false
  end.

(** A child of the earlier revision that can be read without an
    exception: a node whose children are an array. *)
Definition legacy_readable (c : jsvalue) : bool :=
  match c with VNode _ _ _ (JArr _) => true | _ => false end.

(** A string that starts with something else than white space. *)
Definition starts_solid (s : string) : Prop :=
  match s with
  | EmptyString => False
  | String c _ => isWhiteSpace c = false
  end.

(** The comparison the specification describes: both the option text and
    the filter text are lowercased and trimmed. *)
Definition spec_matches (displayText filterText : string) : bool :=
  includes (trim (toLowerCase displayText)) (trim (toLowerCase filterText)).

(** [c] is a node whose [value] is [v]. *)
Definition has_value (v : option string) (c : jsvalue) : bool :=
  match c with VNode v' _ _ _ => strict_eq v' v | _ => false end.

(** The first child of the list, in list order, whose value is [v]. *)
Definition first_with_value (v : option string) (items : list jsvalue)
  : option jsvalue :=
  List.find (has_value v) items.

(** The last child of the list, in list order, whose value is [v]. *)
Fixpoint last_with_value (v : option string) (items : list jsvalue)
  : option jsvalue :=
  match items with
  | [] => None
  | c :: rest =>
      match last_with_value v rest with
      | Some d => Some d
      | None => if has_value v c then Some c else None
      end
  end.

(** The text of a looked-up child, [""] when there is none. *)
Definition text_of (found : option jsvalue) : string :=
  match found with Some c => textContent c | None => "" end.

(** A collection FilteredChildren answers with the empty array before it
    looks at any child: anything that is not an array, and the empty
    array. *)
Definition no_list (children : jsvalue) : bool :=
  match children with JArr (_ :: _) => false | _ => true end.

(** The target of a click carries no value: [evt.target.value] is falsy
    and the element has no [value] attribute. *)
Definition unresolved (t : Target) : bool :=
  negb (truthy (target_value t))
  && match attribute_value t with None => true | Some _ => false end.

(** The options of the README, with their text as only child. *)
Definition option_node (v t : string) : jsvalue :=
  VNode (Some v) None None (JStr t).

(** The same option as the earlier revision receives it, its children an
    array. *)
Definition legacy_option_node (v t : string) : jsvalue :=
  VNode (Some v) None None (JArr [JStr t]).

Definition example_options : list jsvalue :=
  [option_node "1" "Carrot"; option_node "2" "Peanut"; option_node "3" "Banana"].

Definition legacy_example_options : list jsvalue :=
  [legacy_option_node "1" "Carrot"; legacy_option_node "2" "Peanut";
   legacy_option_node "3" "Banana"].

(** Two options that share the value ["1"]. *)
Definition shared_value_options : list jsvalue :=
  [option_node "1" "Carrot"; option_node "1" "Peanut"].

(** A state right after mounting with a callback, holding [t] as filter
    text and [v] as value. *)
Definition example_state (t : string) (v : jsvalue) : State :=
  mkState true false false t v.

(** A panel 100 units below the top of a window 400 units high, under an
    input 200 units wide, with [h] units of content. *)
Definition example_dom (h : Z) : Dom Z :=
  mkDom 200%Z 100%Z h 400%Z css_empty css_empty.

Definition example_world (t : string) (v : jsvalue) : World Z :=
  mkWorld (example_state t v) [] (example_dom 500%Z).

(** The target of a click on a link without [value] attribute. *)
Definition valueless_target : Target := mkTarget JUndefined None "Peanut".

(* ================================================================== *)
(** * Mounting, focus and timers                                       *)
(* ================================================================== *)

(** The default [children = []] in the parameters of Dropdown, which
    replaces [undefined]. *)
Definition default_children (children : jsvalue) : jsvalue :=
  match children with
  | JUndefined => JArr []
  | _ => children
  end.

(** [value || ""], for a prop that is a string or is missing. *)
Definition value_or_empty (value : option string) : jsvalue :=
  match value with
  | Some s => JStr s
  | None => JStr ""
  end.

(** The [state] object of the first render of
    [Dropdown({children, value, onChange, expanded})]: the initial values
    handed to the three [useState] calls, after the lookup of the initial
    filter text. *)
Definition Dropdown_mount (children : jsvalue) (value : option string)
           (onChange_given expanded_prop : bool) : result State :=
  let children := default_children children in
  initial <- initialFilter children value ;;
  Ok (mkState onChange_given expanded_prop false initial (value_or_empty value)).

(** What the first render of Dropdown computes from its props: the
    [state] object, and the candidates that FilteredChildren returns
    for it on the children of the widget.  The rest of the render builds
    elements around them. *)
Definition Dropdown_first_render (style_option : string) (children : jsvalue)
           (value : option string)
           (onChange_given expanded_prop disableFiltering : bool)
  : result (State * list jsvalue) :=
  state <- Dropdown_mount children value onChange_given expanded_prop ;;
  candidates <- FilteredChildren style_option (default_children children)
                                 state disableFiltering ;;
  Ok (state, candidates).

(** The page around the widget: the world of the handlers, whether the
    input has the focus, and how many callbacks of [setTimeout] wait to
    run.  Every such callback is [()=>state.setExpanded(false)]. *)
Record Page (num : Type) : Type := mkPage {
  world : World num;
  input_focused : bool;
  pending_collapses : nat
}.
Arguments mkPage {num}.
Arguments world {num}.
Arguments input_focused {num}.
Arguments pending_collapses {num}.

(** What can happen to the widget.  The text carried by the events of
    the input is [evt.target.value], the text in the input at that
    moment. *)
Inductive event : Type :=
| Input (t : string)              (* the user edits the text *)
| Focus (t : string)              (* the user moves the focus to the input *)
| Blur                            (* the input loses the focus *)
| MouseDown (target : Target)     (* mouse button down on a candidate *)
| ClickClear                      (* click on the clear button *)
| ClickExpand (t : string)        (* click on the expand button *)
| ClickPlaceholder (t : string)   (* click on the placeholder label *)
| Timeout.                        (* a waiting callback runs *)

Section PageListeners.

Context {num : Type} `{JSNumber num}.

(** A handler of the widget, run in the page. *)
Definition in_world (h : World num -> World num) (p : Page num) : Page num :=
  mkPage (h (world p)) (input_focused p) (pending_collapses p).

(** [domElement.input.focus()]: nothing on an input that has the focus;
    otherwise the input takes it and its [onFocus] listener,
    handleInputChange, runs before the call returns. *)
Definition input_focus (state : State) (input_text : string) (p : Page num)
  : Page num :=
  if input_focused p then p
  else mkPage (handleInputChange state input_text (world p)) true
              (pending_collapses p).

(** The [onBlur] listener of the input:
    [if(state.expanded) setTimeout(()=>state.setExpanded(false), 10)]. *)
Definition input_onBlur (state : State) (p : Page num) : Page num :=
  if expanded state
  then mkPage (world p) (input_focused p) (S (pending_collapses p))
  else p.

(** The [onClick] listener of the expand button. *)
Definition btn_expand_onClick (state : State) (input_text : string)
           (p : Page num) : Page num :=
  input_focus state input_text
              (in_world (setExpanded (negb (expanded state))) p).

(** The [onClick] listener of the placeholder label. *)
Definition placeholder_onClick (state : State) (input_text : string)
           (p : Page num) : Page num :=
  input_focus state input_text p.

(** One event, handled by the listeners of the latest render.  The
    placeholder label is rendered only while [state.filter] is falsy; a
    callback runs only if one waits. *)
Definition step (p : Page num) (e : event) : Page num :=
  let state := hooks (world p) in
  match e with
  | Input t => in_world (handleInputChange state t) p
  | Focus t =>
      mkPage (handleInputChange state t (world p)) true (pending_collapses p)
  | Blur =>
      let p' := input_onBlur state p in
      mkPage (world p') false (pending_collapses p')
  | MouseDown target => in_world (handleClick state target) p
  | ClickClear => in_world (btn_clear_onClick state) p
  | ClickExpand t => btn_expand_onClick state t p
  | ClickPlaceholder t =>
      if filter state =? "" then placeholder_onClick state t p else p
  | Timeout =>
      match pending_collapses p with
      | O => p
      | S n => mkPage (setExpanded false (world p)) (input_focused p) n
      end
  end.

(** A sequence of events, oldest first. *)
Definition run (p : Page num) (events : list event) : Page num :=
  fold_left step events p.

End PageListeners.

(** ** More vocabulary *)

(** [c.props.onMouseDown] of a node. *)
Definition node_onMouseDown (c : jsvalue) : option listener :=
  match c with VNode _ _ h _ => h | _ => None end.

(** A child that ends the loop of FilteredChildren with an exception:
    it passes the test and is not a node. *)
Definition breaks_filter (state : State) (disableFiltering : bool)
           (c : jsvalue) : bool :=
  passes state disableFiltering c && negb (is_vnode c).

(** A string among the children of a node. *)
Definition is_string (c : jsvalue) : bool :=
  match c with JStr _ => true | _ => false end.

(** A node whose children are an array of strings. *)
Definition text_only (c : jsvalue) : bool :=
  match c with
  | VNode _ _ _ (JArr kids) => forallb is_string kids
  | _ => false
  end.

(** The text the earlier revision takes from a node: its joined
    children, [""] where the join raises. *)
Definition textContent_legacy (c : jsvalue) : string :=
  match Legacy.props_children_join c with
  | Ok joined => joined
  | TypeError => ""
  end.

(** Measures in whole pixels on which the doubles of the code compute
    without rounding: each is at most 2^50 in absolute value, so that
    every sum and difference of [resizeToBounds] stays below 2^53. *)
Definition exact_pixels (d : Dom Z) : bool :=
  forallb (fun m => (Z.abs m <=? 2 ^ 50)%Z)
          [input_width d; options_y d; options_scrollHeight d;
           window_innerHeight d].

(** The height the panel is asked to take: the one assigned, or the
    height of its content when none is. *)
Definition requested_height (d : Dom Z) : Z :=
  match options_style_height d with
  | css_px h => h
  | css_empty => options_scrollHeight d
  end.

(** A page around the example world, the input without focus and no
    callback waiting. *)
Definition example_page (t : string) (v : jsvalue) : Page Z :=
  mkPage (example_world t v) false 0.

(** The target of a click on the option Peanut of the README. *)
Definition peanut_target : Target := mkTarget (JStr "2") (Some "2") "Peanut".

(* ================================================================== *)
(** * Strings                                                          *)
(* ================================================================== *)

Section StringFacts.

Local Open Scope string_scope.

Lemma prefix_iff_append (p s : string) :
  String.prefix p s = true <-> exists t, s = p ++ t.
Proof.
  revert s; induction p as [|a p IH]; intros s.
  - destruct s; simpl; split; eauto.
  - destruct s as [|b s]; simpl.
    + split; [discriminate | intros [t Ht]; discriminate].
    + destruct (ascii_dec a b) as [->|Hab].
      * rewrite IH; split; intros [t Ht]; exists t.
        -- now rewrite Ht.
        -- now injection Ht.
      * split; [discriminate | intros [t Ht]].
        injection Ht as Hb _. now subst.
Qed.

(** [includes] is the substring relation. *)
Lemma includes_iff_substring (s search : string) :
  includes s search = true <->
  exists before after, s = before ++ search ++ after.
Proof.
  induction s as [|a s IH]; cbn [includes].
  - rewrite orb_false_r, prefix_iff_append; split.
    + intros [t Ht]; exists "", t; exact Ht.
    + intros [[|b before] [after Hs]]; [now exists after | discriminate].
  - rewrite orb_true_iff, prefix_iff_append, IH; split.
    + intros [[t Ht] | (before & after & Hs)].
      * exists "", t; exact Ht.
      * exists (String a before), after; simpl; now rewrite Hs.
    + intros ([|b before] & after & Hs).
      * left; now exists after.
      * right; exists before, after. now injection Hs.
Qed.

(** The empty search string is found in every string. *)
Lemma includes_empty (s : string) : includes s "" = true.
Proof. destruct s; reflexivity. Qed.

Lemma append_assoc (a b c : string) : (a ++ b) ++ c = a ++ b ++ c.
Proof. induction a as [|x a IH]; simpl; [reflexivity | now rewrite IH]. Qed.

Lemma toLowerCase_append (a b : string) :
  toLowerCase (a ++ b) = toLowerCase a ++ toLowerCase b.
Proof. induction a as [|x a IH]; simpl; [reflexivity | now rewrite IH]. Qed.

Lemma toLowerCaseChar_idempotent (c : ascii) :
  toLowerCaseChar (toLowerCaseChar c) = toLowerCaseChar c.
Proof. destruct c as [[] [] [] [] [] [] [] []]; reflexivity. Qed.

Lemma toLowerCase_idempotent (s : string) :
  toLowerCase (toLowerCase s) = toLowerCase s.
Proof.
  induction s as [|a s IH]; simpl; [reflexivity|].
  now rewrite toLowerCaseChar_idempotent, IH.
Qed.

Lemma isWhiteSpace_toLowerCaseChar (c : ascii) :
  isWhiteSpace (toLowerCaseChar c) = isWhiteSpace c.
Proof. destruct c as [[] [] [] [] [] [] [] []]; reflexivity. Qed.

Lemma toLowerCase_trimStart (s : string) :
  toLowerCase (trimStart s) = trimStart (toLowerCase s).
Proof.
  induction s as [|a s IH]; simpl; [reflexivity|].
  rewrite isWhiteSpace_toLowerCaseChar.
  destruct (isWhiteSpace a); [exact IH | reflexivity].
Qed.

Lemma toLowerCase_trimEnd (s : string) :
  toLowerCase (trimEnd s) = trimEnd (toLowerCase s).
Proof.
  induction s as [|a s IH]; simpl; [reflexivity|].
  rewrite <- IH, isWhiteSpace_toLowerCaseChar.
  destruct (trimEnd s); simpl; [destruct (isWhiteSpace a)|]; reflexivity.
Qed.

Lemma toLowerCase_trim (s : string) :
  toLowerCase (trim s) = trim (toLowerCase s).
Proof. unfold trim. now rewrite toLowerCase_trimEnd, toLowerCase_trimStart. Qed.

(** Lowercasing keeps occurrences. *)
Lemma includes_toLowerCase (s search : string) :
  includes s search = true ->
  includes (toLowerCase s) (toLowerCase search) = true.
Proof.
  rewrite !includes_iff_substring. intros (before & after & ->).
  exists (toLowerCase before), (toLowerCase after).
  now rewrite !toLowerCase_append.
Qed.

Lemma trimStart_solid (s : string) :
  trimStart s = "" \/ starts_solid (trimStart s).
Proof.
  induction s as [|a s IH]; simpl; [now left|].
  destruct (isWhiteSpace a) eqn:Ha; [exact IH | right; exact Ha].
Qed.

Lemma trimEnd_solid_start (s : string) :
  starts_solid s -> exists r, trimEnd s = r /\ starts_solid r.
Proof.
  destruct s as [|c s]; simpl; [tauto|]. intros Hc.
  destruct (trimEnd s); [rewrite Hc|]; eexists; split; try reflexivity; exact Hc.
Qed.

Lemma trimStart_append (before s : string) :
  starts_solid s -> trimStart (before ++ s) = trimStart before ++ s.
Proof.
  intros Hs. induction before as [|a before IH]; simpl.
  - destruct s as [|c s]; [destruct Hs|]. simpl in *. now rewrite Hs.
  - destruct (isWhiteSpace a); [exact IH | reflexivity].
Qed.

Lemma trimEnd_cons (c : ascii) (s : string) :
  trimEnd (String c s)
  = match trimEnd s with
    | EmptyString => if isWhiteSpace c then EmptyString else String c EmptyString
    | r => String c r
    end.
Proof. reflexivity. Qed.

Lemma trimEnd_idempotent (s : string) : trimEnd (trimEnd s) = trimEnd s.
Proof.
  induction s as [|c s IH]; [reflexivity|].
  rewrite trimEnd_cons. destruct (trimEnd s) as [|d r] eqn:E.
  - destruct (isWhiteSpace c) eqn:Hc; [reflexivity|].
    rewrite trimEnd_cons. simpl. now rewrite Hc.
  - rewrite trimEnd_cons, IH. reflexivity.
Qed.

(** Text in front of a string that does not trim away is kept. *)
Lemma trimEnd_after_prefix (p s : string) :
  trimEnd s <> "" -> trimEnd (p ++ s) = p ++ trimEnd s.
Proof.
  intros Hne. induction p as [|a p IH]; [reflexivity|].
  cbn [append]. rewrite trimEnd_cons, IH.
  destruct (p ++ trimEnd s) as [|d r] eqn:E; [|reflexivity].
  destruct p; [contradiction | discriminate].
Qed.

(** A non-empty string that is its own [trimEnd] ends the trimming. *)
Lemma trimEnd_append (s after : string) :
  s <> "" -> trimEnd s = s -> trimEnd (s ++ after) = s ++ trimEnd after.
Proof.
  induction s as [|c s IH]; intros Hne Hfix; [congruence|].
  rewrite trimEnd_cons in Hfix. cbn [append]. rewrite trimEnd_cons.
  destruct s as [|d s].
  - cbn [trimEnd] in Hfix. cbn [append].
    destruct (isWhiteSpace c); [discriminate|].
    destruct (trimEnd after); reflexivity.
  - assert (Hs : trimEnd (String d s) = String d s).
    { destruct (trimEnd (String d s)) as [|e r].
      - destruct (isWhiteSpace c); discriminate.
      - injection Hfix as -> ->. reflexivity. }
    rewrite (IH ltac:(discriminate) Hs). reflexivity.
Qed.

(** A trimmed string is empty, or starts with something else than white
    space and is its own [trimEnd]. *)
Lemma trim_solid (x : string) :
  trim x = "" \/ (starts_solid (trim x) /\ trimEnd (trim x) = trim x).
Proof.
  unfold trim. destruct (trimStart_solid x) as [Hx|Hx].
  - left. now rewrite Hx.
  - right. destruct (trimEnd_solid_start _ Hx) as (r & Hr & Hsolid).
    rewrite trimEnd_idempotent, Hr. auto.
Qed.

(** An occurrence of a trimmed string lies inside the trimmed text. *)
Lemma includes_trim (s x : string) :
  includes s (trim x) = true -> includes (trim s) (trim x) = true.
Proof.
  rewrite !includes_iff_substring. intros (before & after & ->).
  destruct (trim_solid x) as [Hx|[Hsolid Hfix]].
  - rewrite Hx. exists "", (trim (before ++ "" ++ after)). reflexivity.
  - set (r := trim x) in *.
    assert (Hne : r <> "") by (destruct r; [destruct Hsolid | discriminate]).
    exists (trimStart before), (trimEnd after).
    unfold trim. rewrite trimStart_append.
    + rewrite trimEnd_after_prefix; rewrite (trimEnd_append r after Hne Hfix).
      * reflexivity.
      * destruct r; [contradiction | discriminate].
    + destruct r; [destruct Hsolid|]. exact Hsolid.
Qed.

End StringFacts.

(* ================================================================== *)
(** * Candidate filtering                                              *)
(* ================================================================== *)

Section CandidateFilter.

Variable style_option : string.
Variable state : State.

Lemma cloneOption_vnode (c : jsvalue) :
  is_vnode c = true ->
  cloneOption style_option c = Ok (with_listener style_option c).
Proof. destruct c; simpl; intros Hc; try discriminate; reflexivity. Qed.

Lemma cloneOption_not_vnode (c : jsvalue) :
  is_vnode c = false -> cloneOption style_option c = TypeError.
Proof. destruct c; simpl; intros Hc; try discriminate; reflexivity. Qed.

(** One round of the loop on a node: pushed when it passes the test,
    skipped otherwise. *)
Lemma FilteredChildren_each_vnode d options c :
  is_vnode c = true ->
  FilteredChildren_each style_option state d options c
  = Ok (options ++ (if passes state d c
                    then [with_listener style_option c] else [])).
Proof.
  intros Hc. unfold FilteredChildren_each, passes.
  destruct (includes _ _ || d).
  - now rewrite (cloneOption_vnode c Hc).
  - now rewrite app_nil_r.
Qed.

(** The loop over a list of nodes pushes the clones of those that pass,
    in list order. *)
Lemma forEach_FilteredChildren_each d items : forall options,
  forallb is_vnode items = true ->
  forEach (FilteredChildren_each style_option state d) items options
  = Ok (options ++ map (with_listener style_option)
                       (List.filter (passes state d) items)).
Proof.
  induction items as [|c items IH]; intros options Hall.
  - simpl. now rewrite app_nil_r.
  - simpl in Hall. apply andb_true_iff in Hall as [Hc Hall].
    cbn [forEach List.filter]. rewrite (FilteredChildren_each_vnode _ _ _ Hc).
    cbn [bind]. rewrite (IH _ Hall), <- app_assoc.
    destruct (passes state d c); reflexivity.
Qed.

(** What FilteredChildren returns on a list of nodes. *)
Lemma FilteredChildren_on_nodes d items :
  forallb is_vnode items = true ->
  FilteredChildren style_option (JArr items) state d
  = Ok (map (with_listener style_option)
            (List.filter (passes state d) items)).
Proof.
  intros Hall. unfold FilteredChildren.
  destruct items as [|c items]; [reflexivity|].
  cbn [List.length Nat.ltb Nat.leb].
  now rewrite (forEach_FilteredChildren_each d (c :: items) [] Hall).
Qed.

(** With filtering enabled, the candidates are the clones of the nodes
    whose text, as it is written, contains the lowercased and trimmed
    filter text. *)
Lemma FilteredChildren_candidates items candidates :
  forallb is_vnode items = true ->
  FilteredChildren style_option (JArr items) state false = Ok candidates ->
  forall r, In r candidates <->
    exists c, In c items /\ r = with_listener style_option c
              /\ includes (textContent c)
                          (trim (toLowerCase (filter state))) = true.
Proof.
  intros Hall Hrun r.
  rewrite (FilteredChildren_on_nodes false items Hall) in Hrun.
  injection Hrun as <-. rewrite in_map_iff. split.
  - intros (c & <- & Hin). apply filter_In in Hin as [Hin Hp].
    exists c. unfold passes in Hp. rewrite orb_false_r in Hp. auto.
  - intros (c & Hin & -> & Hp). exists c. split; [reflexivity|].
    apply filter_In. unfold passes. rewrite orb_false_r. auto.
Qed.

(** A child that is not a node ends the loop with an exception as soon
    as it passes the test. *)
Lemma FilteredChildren_raises d before c after :
  forallb is_vnode before = true ->
  is_vnode c = false ->
  passes state d c = true ->
  FilteredChildren style_option (JArr (before ++ c :: after)) state d
  = TypeError.
Proof.
  intros Hb Hc Hp.
  assert (Hloop : forall options,
    forEach (FilteredChildren_each style_option state d)
            (before ++ c :: after) options = TypeError).
  { induction before as [|b before IH]; intros options.
    - cbn [app forEach]. unfold FilteredChildren_each.
      unfold passes in Hp. rewrite Hp.
      now rewrite (cloneOption_not_vnode c Hc).
    - simpl in Hb. apply andb_true_iff in Hb as [Hb1 Hb].
      cbn [app forEach]. rewrite (FilteredChildren_each_vnode _ _ _ Hb1).
      cbn [bind]. apply IH, Hb. }
  unfold FilteredChildren.
  destruct (before ++ c :: after) as [|x l] eqn:E.
  - destruct before; discriminate.
  - cbn [List.length Nat.ltb Nat.leb]. apply Hloop.
Qed.

(** One round of the loop of the earlier revision, on a node whose
    children are an array. *)
Lemma Legacy_FilteredChildren_each_readable options c :
  legacy_readable c = true ->
  Legacy.FilteredChildren_each style_option state options c
  = Ok (options ++ (if legacy_passes state c
                    then [with_listener style_option c] else [])).
Proof.
  intros Hc.
  destruct c as [| | | | |v cls h ch]; try discriminate.
  destruct ch as [| | | |kids|]; try discriminate.
  unfold Legacy.FilteredChildren_each, legacy_passes.
  cbn [Legacy.props_children_join bind].
  destruct (includes _ _); [reflexivity | now rewrite app_nil_r].
Qed.

Lemma Legacy_forEach_FilteredChildren_each items : forall options,
  forallb legacy_readable items = true ->
  forEach (Legacy.FilteredChildren_each style_option state) items options
  = Ok (options ++ map (with_listener style_option)
                       (List.filter (legacy_passes state) items)).
Proof.
  induction items as [|c items IH]; intros options Hall.
  - simpl. now rewrite app_nil_r.
  - simpl in Hall. apply andb_true_iff in Hall as [Hc Hall].
    cbn [forEach List.filter].
    rewrite (Legacy_FilteredChildren_each_readable _ _ Hc).
    cbn [bind]. rewrite (IH _ Hall), <- app_assoc.
    destruct (legacy_passes state c); reflexivity.
Qed.

(** The earlier revision keeps a node exactly when its lowercased and
    trimmed text contains the lowercased and trimmed filter text. *)
Lemma Legacy_FilteredChildren_on_nodes items :
  forallb legacy_readable items = true ->
  Legacy.FilteredChildren style_option (JArr items) state
  = Ok (map (with_listener style_option)
            (List.filter (legacy_passes state) items)).
Proof.
  intros Hall. unfold Legacy.FilteredChildren.
  now rewrite (Legacy_forEach_FilteredChildren_each items [] Hall).
Qed.

(** The earlier revision has no guard: without children it raises. *)
Lemma Legacy_FilteredChildren_missing :
  Legacy.FilteredChildren style_option JUndefined state = TypeError.
Proof. reflexivity. Qed.

End CandidateFilter.

(** The test of the earlier revision is the comparison of the
    specification, applied to the joined children. *)
Lemma legacy_passes_spec_matches (state : State) v cls h items :
  legacy_passes state (VNode v cls h (JArr items))
  = spec_matches (join (map Legacy.element_to_string items)) (filter state).
Proof. reflexivity. Qed.

(** On a text that is lowercased and trimmed already, the test of
    FilteredChildren is the comparison of the specification. *)
Lemma passes_spec_matches_on_lowercase (state : State) (c : jsvalue) :
  toLowerCase (textContent c) = textContent c ->
  trim (textContent c) = textContent c ->
  passes state false c = spec_matches (textContent c) (filter state).
Proof.
  intros Hlow Htrim. unfold passes, spec_matches.
  now rewrite Hlow, Htrim, orb_false_r.
Qed.

(** Whatever passes the test of FilteredChildren passes the comparison
    of the specification: the test is the stricter of the two. *)
Lemma passes_spec_matches (state : State) (c : jsvalue) :
  passes state false c = true ->
  spec_matches (textContent c) (filter state) = true.
Proof.
  unfold passes, spec_matches. rewrite orb_false_r. intros Hp.
  apply includes_trim. apply includes_toLowerCase in Hp.
  now rewrite toLowerCase_trim, toLowerCase_idempotent in Hp.
Qed.

(** A filter text that is empty or white space keeps every option. *)
Lemma FilteredChildren_blank_filter (style_option : string) (state : State)
      (d : bool) (items : list jsvalue) :
  trim (toLowerCase (filter state)) = "" ->
  forallb is_vnode items = true ->
  FilteredChildren style_option (JArr items) state d
  = Ok (map (with_listener style_option) items).
Proof.
  intros Hblank Hall.
  rewrite (FilteredChildren_on_nodes style_option state d items Hall).
  do 2 f_equal. clear Hall. induction items as [|c items IH]; simpl.
  - reflexivity.
  - unfold passes at 1. rewrite Hblank, includes_empty. simpl. now f_equal.
Qed.

(** C1, the comparison on the option side.  The specification lowercases
    and trims the text of the option as well as the filter text, so that
    the option Carrot is a candidate for the filter text " carrot ".
    FilteredChildren lowercases and trims the filter text only: among
    Carrot, Peanut and Banana it finds no candidate for " carrot ", not
    even Carrot, whatever the class name of the style sheet. *)
Theorem FilteredChildren_misses_Carrot : forall style_option : string,
  spec_matches (textContent (option_node "1" "Carrot")) " carrot " = true
  /\ FilteredChildren style_option (JArr example_options)
                      (example_state " carrot " (JStr "")) false
     = Ok [].
Proof. intros style_option. split; reflexivity. Qed.

(** The earlier revision, which lowercases and trims both sides, finds
    Carrot for the same filter text. *)
Lemma Legacy_FilteredChildren_finds_Carrot : forall style_option : string,
  Legacy.FilteredChildren style_option (JArr legacy_example_options)
                          (example_state " carrot " (JStr ""))
  = Ok [with_listener style_option (legacy_option_node "1" "Carrot")].
Proof. intros style_option. reflexivity. Qed.

(** C4.  With filtering disabled, FilteredChildren returns the options of
    the list one for one and in list order, whatever the filter text:
    each is returned as its clone, which has the value and the children
    of the option it was made from. *)
Theorem FilteredChildren_disabled_returns_all :
  forall (style_option : string) (state : State) (items : list jsvalue),
    forallb is_vnode items = true ->
    let candidates := map (with_listener style_option) items in
    FilteredChildren style_option (JArr items) state true = Ok candidates
    /\ map node_value candidates = map node_value items
    /\ map node_children candidates = map node_children items
    /\ map textContent candidates = map textContent items.
Proof.
  intros style_option state items Hall candidates. subst candidates.
  split; [|repeat split].
  - rewrite (FilteredChildren_on_nodes style_option state true items Hall).
    do 2 f_equal. clear Hall. induction items as [|c items IH]; simpl.
    + reflexivity.
    + unfold passes at 1. rewrite orb_true_r. now f_equal.
  - rewrite map_map. apply map_ext_in. intros c _. now destruct c.
  - rewrite map_map. apply map_ext_in. intros c _. now destruct c.
  - rewrite map_map. apply map_ext_in. intros c _. now destruct c.
Qed.

Lemma FilteredChildren_disabled_returns_all_witness :
  forallb is_vnode example_options = true
  /\ let candidates := map (with_listener "option") example_options in
     FilteredChildren "option" (JArr example_options)
                      (example_state "zebra" (JStr "")) true
     = Ok candidates
     /\ map node_value candidates = map node_value example_options
     /\ map node_children candidates = map node_children example_options
     /\ map textContent candidates = map textContent example_options.
Proof.
  split; [reflexivity|].
  apply (FilteredChildren_disabled_returns_all
           "option" (example_state "zebra" (JStr "")) example_options).
  reflexivity.
Defined.

(** C5, as stated, fails on a list that holds [null] next to an option,
    as a conditional child leaves it: with the empty filter text of a
    fresh widget every child passes the test, and the read of the [props]
    of [null] raises. *)
Lemma FilteredChildren_null_child_raises :
  is_vnode JNull = false
  /\ FilteredChildren "option" (JArr [option_node "1" "Carrot"; JNull])
                      (example_state "" (JStr "")) false
     = TypeError
  /\ FilteredChildren "option" (JArr [option_node "1" "Carrot"; JNull])
                      (example_state "" (JStr "")) false
     <> Ok [].
Proof. split; [reflexivity | split; [reflexivity | discriminate]]. Qed.

(** C5, amended.  For children that are missing, that are not an array,
    or that are the empty array, FilteredChildren returns the empty array
    and raises nothing. *)
Theorem FilteredChildren_no_list :
  forall (style_option : string) (children : jsvalue) (state : State)
         (disableFiltering : bool),
    no_list children = true ->
    FilteredChildren style_option children state disableFiltering = Ok [].
Proof.
  intros style_option children state d Hno.
  destruct children as [| | | |items|]; try reflexivity.
  destruct items; [reflexivity | discriminate].
Qed.

Lemma FilteredChildren_no_list_witness :
  no_list JUndefined = true
  /\ FilteredChildren "option" JUndefined (example_state "" (JStr "")) false
     = Ok [].
Proof.
  split; [reflexivity|].
  apply (FilteredChildren_no_list
           "option" JUndefined (example_state "" (JStr "")) false).
  reflexivity.
Defined.

(* ================================================================== *)
(** * Lookup of the initial value                                      *)
(* ================================================================== *)

Section InitialValue.

Variable value : option string.

(** [last_with_value] picks the child after which no child has the
    value. *)
Lemma last_with_value_none (items : list jsvalue) :
  last_with_value value items = None <->
  forallb (fun d => negb (has_value value d)) items = true.
Proof.
  induction items as [|c items IH]; simpl; [tauto|].
  rewrite andb_true_iff, <- IH, negb_true_iff.
  destruct (last_with_value value items), (has_value value c);
    split; try tauto; try discriminate; intros [? ?]; discriminate.
Qed.

Lemma last_with_value_some (items : list jsvalue) (c : jsvalue) :
  last_with_value value items = Some c <->
  exists before after,
    items = before ++ c :: after
    /\ has_value value c = true
    /\ forallb (fun d => negb (has_value value d)) after = true.
Proof.
  split.
  - revert c. induction items as [|x items IH]; intros c; simpl.
    + discriminate.
    + destruct (last_with_value value items) as [d|] eqn:E.
      * intros [= ->]. destruct (IH c eq_refl) as (before & after & -> & Hc & Ha).
        exists (x :: before), after. auto.
      * destruct (has_value value x) eqn:Hx; [|discriminate].
        intros [= ->]. exists [], items. repeat split; auto.
        now apply last_with_value_none.
  - intros (before & after & -> & Hc & Ha).
    induction before as [|b before IH]; simpl.
    + apply last_with_value_none in Ha. now rewrite Ha, Hc.
    + now rewrite IH.
Qed.

(** One round of the loop on a child that is neither [null] nor
    [undefined]. *)
Lemma findChildByValue_each_defined (retVal : RetVal) (c : jsvalue) :
  nullish c = false ->
  findChildByValue_each value retVal c
  = Ok (if has_value value c
        then {| child := Some c; text := textContent c |}
        else retVal).
Proof.
  destruct c as [| | | | |v cls h ch]; intros Hc;
    try discriminate; try reflexivity.
  cbn [findChildByValue_each has_value].
  destruct (strict_eq v value); reflexivity.
Qed.

(** The loop keeps overwriting [retVal]: it ends with the last match. *)
Lemma forEach_findChildByValue_each (items : list jsvalue) :
  forall retVal : RetVal,
    forallb (fun c => negb (nullish c)) items = true ->
    forEach (findChildByValue_each value) items retVal
    = Ok (match last_with_value value items with
          | Some c => {| child := Some c; text := textContent c |}
          | None => retVal
          end).
Proof.
  induction items as [|c items IH]; intros retVal Hall; [reflexivity|].
  simpl in Hall. apply andb_true_iff in Hall as [Hc Hall].
  apply negb_true_iff in Hc.
  cbn [forEach last_with_value].
  rewrite (findChildByValue_each_defined _ _ Hc). cbn [bind].
  rewrite (IH _ Hall).
  destruct (last_with_value value items), (has_value value c); reflexivity.
Qed.

Lemma findChildByValue_last (items : list jsvalue) :
  forallb (fun c => negb (nullish c)) items = true ->
  findChildByValue (JArr items) value
  = Ok {| child := last_with_value value items;
          text := text_of (last_with_value value items) |}.
Proof.
  intros Hall. unfold findChildByValue.
  destruct items as [|c items]; [reflexivity|].
  cbn [List.length Nat.ltb Nat.leb].
  rewrite (forEach_findChildByValue_each (c :: items) _ Hall).
  destruct (last_with_value value (c :: items)); reflexivity.
Qed.

(** Without a value, or with the empty string, nothing is looked up. *)
Lemma initialFilter_falsy (children : jsvalue) :
  value_truthy value = false -> initialFilter children value = Ok "".
Proof. intros Hv. unfold initialFilter. now rewrite Hv. Qed.

(** Children that are not an array, a single node among them, give the
    empty text. *)
Lemma initialFilter_no_list (children : jsvalue) :
  no_list children = true -> initialFilter children value = Ok "".
Proof.
  intros Hno. unfold initialFilter. destruct (value_truthy value); [|reflexivity].
  destruct children as [| | | |items|]; try reflexivity.
  destruct items; [reflexivity | discriminate].
Qed.

End InitialValue.

(** C2, as stated, fails when two options share a value: the text comes
    from the second of them, not from the first. *)
Lemma initialFilter_not_first_match :
  first_with_value (Some "1") shared_value_options
  = Some (option_node "1" "Carrot")
  /\ initialFilter (JArr shared_value_options) (Some "1") = Ok "Peanut"
  /\ initialFilter (JArr shared_value_options) (Some "1")
     <> Ok (text_of (first_with_value (Some "1") shared_value_options)).
Proof.
  split; [reflexivity | split; [reflexivity|]].
  vm_compute. discriminate.
Qed.

(** The earlier revision overwrites its result in the same way. *)
Lemma Legacy_findChildByValue_not_first_match :
  Legacy.findChildByValue
    (JArr [legacy_option_node "1" "Carrot"; legacy_option_node "1" "Peanut"])
    (Some "1")
  = Ok {| child := Some (legacy_option_node "1" "Peanut"); text := "Peanut" |}.
Proof. reflexivity. Qed.

(** C2, amended.  For a list of children without [null] and [undefined],
    the initial filter text is the text of the LAST child, in list order,
    whose value is the initial value; it is the empty string when no
    child has that value and when the initial value is missing or
    empty. *)
Theorem initialFilter_last_match :
  forall (items : list jsvalue) (value : option string),
    forallb (fun c => negb (nullish c)) items = true ->
    initialFilter (JArr items) value
    = Ok (if value_truthy value
          then text_of (last_with_value value items)
          else "").
Proof.
  intros items value Hall. unfold initialFilter.
  destruct (value_truthy value); [|reflexivity].
  now rewrite (findChildByValue_last value items Hall).
Qed.

Lemma initialFilter_last_match_witness :
  forallb (fun c => negb (nullish c)) shared_value_options = true
  /\ initialFilter (JArr shared_value_options) (Some "1")
     = Ok (textContent (option_node "1" "Peanut")).
Proof.
  split; [reflexivity|].
  apply (initialFilter_last_match shared_value_options (Some "1")).
  reflexivity.
Defined.

(* ================================================================== *)
(** * Event handlers                                                   *)
(* ================================================================== *)

(** Runs the statements of a handler. *)
Ltac run_handler :=
  unfold dispatch, handleInputChange, btn_clear_onClick, handleClick,
         seq, skip, setExpanded, setFilter, setValue,
         call_onChange, call_resizeToBounds;
  cbn [hooks emitted dom onChange alwaysExpanded expanded filter value].

Lemma is_empty_string_iff (v : jsvalue) :
  is_empty_string v = true <-> v = JStr "".
Proof.
  destruct v as [| | |s| |]; simpl; split; try discriminate.
  - intros Hs. apply String.eqb_eq in Hs. now subst.
  - intros [= ->]. reflexivity.
Qed.

Lemma is_empty_string_false_iff (v : jsvalue) :
  is_empty_string v = false <-> v <> JStr "".
Proof.
  rewrite <- is_empty_string_iff. destruct (is_empty_string v); split;
    congruence.
Qed.

Lemma app_singleton_neq {A} (l : list A) (x : A) : l <> l ++ [x].
Proof.
  intros Heq. apply (f_equal (@List.length A)) in Heq.
  rewrite length_app in Heq. simpl in Heq. lia.
Qed.

Section HandlerFacts.

Context {num : Type} `{JSNumber num}.

(** With an unresolved target, [value] is [null]. *)
Lemma unresolved_value_null (t : Target) :
  unresolved t = true ->
  or_else (target_value t) (getAttribute_value t) = JNull.
Proof.
  unfold unresolved, or_else, getAttribute_value. intros Hu.
  apply andb_true_iff in Hu as [Hv Ha]. apply negb_true_iff in Hv.
  rewrite Hv. now destruct (attribute_value t).
Qed.

(** What the clear button does to the cells, with or without a
    callback. *)
Lemma btn_clear_onClick_cells (w : World num) :
  let w' := dispatch btn_clear_onClick w in
  filter (hooks w') = "" /\ value (hooks w') = JStr "".
Proof.
  run_handler. split.
  - destruct (filter (hooks w) =? "")%string eqn:Ef;
      destruct (is_empty_string (value (hooks w)));
      destruct (onChange (hooks w)); cbn; try reflexivity;
      now apply String.eqb_eq in Ef.
  - destruct (filter (hooks w) =? "")%string;
      destruct (is_empty_string (value (hooks w))) eqn:Ev;
      destruct (onChange (hooks w)); cbn; try reflexivity;
      now apply is_empty_string_iff in Ev.
Qed.

(** What the clear button passes to the callback. *)
Lemma btn_clear_onClick_emitted (w : World num) :
  emitted (dispatch btn_clear_onClick w)
  = emitted w
    ++ (if negb (is_empty_string (value (hooks w))) && onChange (hooks w)
        then [JStr ""] else []).
Proof.
  run_handler.
  destruct (filter (hooks w) =? "")%string;
    destruct (is_empty_string (value (hooks w)));
    destruct (onChange (hooks w)); cbn; now rewrite ?app_nil_r.
Qed.

(** Without a callback the cells are cleared and nothing is called. *)
Lemma btn_clear_onClick_without_callback (w : World num) :
  onChange (hooks w) = false ->
  emitted (dispatch btn_clear_onClick w) = emitted w.
Proof.
  intros Hcb. rewrite btn_clear_onClick_emitted, Hcb, andb_false_r.
  now rewrite app_nil_r.
Qed.

End HandlerFacts.

(** A click on a target that gives no value at all: the value cell
    becomes [null] and the callback, when there is one, is called once,
    with [null]. *)
Lemma handleClick_unresolved :
  forall (num : Type) (state : State) (t : Target) (w : World num),
    unresolved t = true ->
    let w' := handleClick state t w in
    filter (hooks w') = innerText t
    /\ expanded (hooks w') = false
    /\ value (hooks w') = JNull
    /\ emitted w' = emitted w ++ (if onChange state then [JNull] else []).
Proof.
  intros num state t w Hu. run_handler.
  rewrite (unresolved_value_null t Hu).
  destruct (onChange state); cbn; rewrite ?app_nil_r; auto.
Qed.

(** [evt.target.value || evt.target.getAttribute('value')] is never
    [undefined]: it is a truthy value of the target, or what
    [getAttribute] returns, a string or [null]. *)
Lemma or_else_attribute_not_undefined (t : Target) :
  or_else (target_value t) (getAttribute_value t) <> JUndefined.
Proof.
  unfold or_else. destruct (truthy (target_value t)) eqn:Et.
  - intros Heq. rewrite Heq in Et. discriminate.
  - unfold getAttribute_value. destruct (attribute_value t); discriminate.
Qed.

(** C3.  A click on a candidate without [value] attribute still sets the
    filter text to the text of the candidate and collapses the panel,
    and it never calls the callback with [undefined]: the one value it
    passes, when there is a callback, is the value of the target if that
    is truthy and [null] otherwise. *)
Theorem handleClick_without_value_attribute :
  forall (num : Type) (state : State) (t : Target) (w : World num),
    attribute_value t = None ->
    let v := or_else (target_value t) JNull in
    let w' := handleClick state t w in
    filter (hooks w') = innerText t
    /\ expanded (hooks w') = false
    /\ emitted w' = emitted w ++ (if onChange state then [v] else [])
    /\ v <> JUndefined.
Proof.
  intros num state t w Hattr v w'. subst v w'.
  pose proof (or_else_attribute_not_undefined t) as Hdef.
  unfold getAttribute_value in Hdef. rewrite Hattr in Hdef.
  run_handler. unfold getAttribute_value. rewrite Hattr.
  destruct (onChange state); cbn; rewrite ?app_nil_r; auto.
Qed.

Lemma handleClick_without_value_attribute_witness :
  attribute_value valueless_target = None
  /\ let w' := handleClick (example_state "pea" (JStr "")) valueless_target
                           (example_world "pea" (JStr "")) in
     filter (hooks w') = "Peanut"
     /\ expanded (hooks w') = false
     /\ emitted w' = [JNull]
     /\ JNull <> JUndefined.
Proof.
  split; [reflexivity|].
  apply (handleClick_without_value_attribute
           Z (example_state "pea" (JStr "")) valueless_target
           (example_world "pea" (JStr ""))).
  reflexivity.
Defined.

(** C6.  The clear button sets the filter text and the value to the empty
    string, and calls the callback of the widget, with the empty string,
    exactly when the value was not the empty string before; when it was,
    nothing is called. *)
Theorem btn_clear_onClick_clears :
  forall (num : Type) (w : World num),
    onChange (hooks w) = true ->
    let w' := dispatch btn_clear_onClick w in
    filter (hooks w') = ""
    /\ value (hooks w') = JStr ""
    /\ (emitted w' = emitted w ++ [JStr ""] <-> value (hooks w) <> JStr "")
    /\ (emitted w' = emitted w <-> value (hooks w) = JStr "").
Proof.
  intros num w Hcb w'. subst w'.
  destruct (btn_clear_onClick_cells w) as [Hf Hv].
  split; [exact Hf | split; [exact Hv|]].
  rewrite btn_clear_onClick_emitted, Hcb, andb_true_r.
  rewrite <- is_empty_string_false_iff, <- is_empty_string_iff.
  destruct (is_empty_string (value (hooks w))); cbn [negb];
    rewrite ?app_nil_r; split; split; try congruence; intros Heq.
  - now apply app_singleton_neq in Heq.
  - symmetry in Heq. now apply app_singleton_neq in Heq.
Qed.

Lemma btn_clear_onClick_clears_witness :
  onChange (hooks (example_world "Peanut" (JStr "2"))) = true
  /\ let w' := dispatch btn_clear_onClick (example_world "Peanut" (JStr "2")) in
     filter (hooks w') = ""
     /\ value (hooks w') = JStr ""
     /\ emitted w' = [JStr ""].
Proof.
  split; [reflexivity|].
  destruct (btn_clear_onClick_clears Z (example_world "Peanut" (JStr "2"))
              eq_refl) as (Hf & Hv & Hcall & _).
  split; [exact Hf | split; [exact Hv|]].
  apply Hcall. discriminate.
Defined.

(** C9.  Whatever the state, the text of the input and the [expanded]
    prop, handleInputChange leaves the panel expanded: the assignment
    under the test is overwritten by the one that follows it, so that the
    handler does what it would do without the test. *)
Theorem handleInputChange_always_expands :
  forall (num : Type) (N : JSNumber num)
         (state : State) (t : string) (w : World num),
    let w' := handleInputChange state t w in
    expanded (hooks w') = true
    /\ w' = seq (setExpanded true) (seq (setFilter t) call_resizeToBounds) w.
Proof.
  intros num N state t w. run_handler.
  destruct (negb (t =? "")%string || alwaysExpanded state); auto.
Qed.

(** The earlier revision expands in the same way. *)
Lemma Legacy_handleInputChange_always_expands :
  forall (num : Type) (state : State) (t : string) (w : World num),
    expanded (hooks (Legacy.handleInputChange state t w)) = true.
Proof.
  intros num state t w. unfold Legacy.handleInputChange. run_handler.
  destruct (negb (t =? "")%string || alwaysExpanded state); reflexivity.
Qed.

(** C10.  The clear button leaves the expansion flag as it was; of the
    world it writes the filter text and the value only, and adds to the
    calls of the callback. *)
Theorem btn_clear_onClick_keeps_expanded :
  forall (num : Type) (state : State) (w : World num),
    let w' := btn_clear_onClick state w in
    expanded (hooks w') = expanded (hooks w)
    /\ alwaysExpanded (hooks w') = alwaysExpanded (hooks w)
    /\ onChange (hooks w') = onChange (hooks w)
    /\ dom w' = dom w.
Proof.
  intros num state w. run_handler.
  destruct (negb (filter state =? "")%string);
    destruct (negb (is_empty_string (value state)));
    destruct (onChange state); cbn; auto.
Qed.

(* ================================================================== *)
(** * Geometry of the options panel                                    *)
(* ================================================================== *)

Section Geometry.

Context {num : Type} `{JSNumber num}.

(** The measures are read, never written. *)
Lemma resizeToBounds_measures (d : Dom num) :
  let d' := resizeToBounds d in
  input_width d' = input_width d
  /\ options_y d' = options_y d
  /\ options_scrollHeight d' = options_scrollHeight d
  /\ window_innerHeight d' = window_innerHeight d.
Proof.
  unfold resizeToBounds. cbn.
  destruct (gtb _ _); cbn; auto.
Qed.

(** The styles written depend on the measures only. *)
Lemma resizeToBounds_from_measures (d1 d2 : Dom num) :
  input_width d1 = input_width d2 ->
  options_y d1 = options_y d2 ->
  options_scrollHeight d1 = options_scrollHeight d2 ->
  window_innerHeight d1 = window_innerHeight d2 ->
  resizeToBounds d1 = resizeToBounds d2.
Proof.
  destruct d1, d2. cbn. intros -> -> -> ->. reflexivity.
Qed.

(** The two styles written, from the measures. *)
Lemma resizeToBounds_styles (d : Dom num) :
  options_style_width (resizeToBounds d)
  = css_px (sub (input_width d) (lit 1))
  /\ options_style_height (resizeToBounds d)
     = if gtb (add (options_scrollHeight d) (options_y d))
              (sub (window_innerHeight d) (lit 10))
       then css_px (sub (sub (window_innerHeight d) (lit 10)) (options_y d))
       else css_empty.
Proof.
  unfold resizeToBounds. cbn.
  destruct (gtb _ _); cbn; auto.
Qed.

End Geometry.

(** C7.  After resizeToBounds the width of the panel is the width of the
    input minus 1; its height is the window height minus 10 minus the top
    of the panel when the content height plus the top exceeds the window
    height minus 10, and is left to the content otherwise. *)
Theorem resizeToBounds_width_and_height :
  forall (num : Type) (N : JSNumber num) (d : Dom num),
    let d' := resizeToBounds d in
    let bound := sub (window_innerHeight d) (lit 10) in
    options_style_width d' = css_px (sub (input_width d) (lit 1))
    /\ options_style_height d'
       = if gtb (add (options_scrollHeight d) (options_y d)) bound
         then css_px (sub bound (options_y d))
         else css_empty.
Proof. intros num N d. exact (resizeToBounds_styles d). Qed.

(** The same in whole pixels that the code computes exactly, with the
    order of the integers: a clamped panel ends 10 units above the
    bottom of the window. *)
Lemma resizeToBounds_whole_pixels (d : Dom Z) :
  exact_pixels d = true ->
  let d' := resizeToBounds d in
  let top := options_y d in
  let natural := options_scrollHeight d in
  let viewport := window_innerHeight d in
  (options_style_width d' = css_px (input_width d - 1)
   /\ (top + natural > viewport - 10 ->
       options_style_height d' = css_px (viewport - 10 - top)
       /\ top + (viewport - 10 - top) = viewport - 10)
   /\ (top + natural <= viewport - 10 ->
       options_style_height d' = css_empty))%Z.
Proof.
  intros _.
  destruct (resizeToBounds_styles d) as [Hw Hh].
  cbn zeta in *. split; [exact Hw|].
  rewrite Hh. cbn [gtb add sub lit JSNumber_Z].
  destruct (Z.gtb_spec (options_scrollHeight d + options_y d)
                       (window_innerHeight d - 10)) as [Hgt|Hle];
    split; intros Hcmp; try lia; auto.
  split; [reflexivity | lia].
Qed.

(** The two cases of the height on the example panel: 500 units of
    content do not fit under the top at 100 in a window of 400, 120 units
    do. *)
Lemma resizeToBounds_examples :
  options_style_width (resizeToBounds (example_dom 500)) = css_px 199%Z
  /\ options_style_height (resizeToBounds (example_dom 500)) = css_px 290%Z
  /\ options_style_height (resizeToBounds (example_dom 120)) = css_empty.
Proof. repeat split. Qed.

(** C8.  resizeToBounds is idempotent: with the measures unchanged, a
    second run leaves the width and the height of the panel as the first
    run set them. *)
Theorem resizeToBounds_idempotent :
  forall (num : Type) (N : JSNumber num) (d : Dom num),
    resizeToBounds (resizeToBounds d) = resizeToBounds d.
Proof.
  intros num N d.
  destruct (resizeToBounds_measures d) as (Hw & Hy & Hs & Hi).
  now apply resizeToBounds_from_measures.
Qed.

(* ================================================================== *)
(** * Further properties: candidate filtering and option text          *)
(* ================================================================== *)

Section MoreStringFacts.

Local Open Scope string_scope.

Lemma append_empty_r (s : string) : s ++ "" = s.
Proof. induction s as [|a s IH]; simpl; [reflexivity | now rewrite IH]. Qed.

Lemma includes_trans (s a b : string) :
  includes s a = true -> includes a b = true -> includes s b = true.
Proof.
  rewrite !includes_iff_substring.
  intros (p1 & q1 & ->) (p2 & q2 & ->).
  exists (p1 ++ p2), (q2 ++ q1). now rewrite !append_assoc.
Qed.

Lemma trimStart_of_solid (s : string) : starts_solid s -> trimStart s = s.
Proof. destruct s as [|c s]; simpl; [tauto | now intros ->]. Qed.

Lemma trim_idempotent (s : string) : trim (trim s) = trim s.
Proof.
  destruct (trim_solid s) as [Hs|[Hsolid Hfix]].
  - now rewrite Hs.
  - unfold trim at 1. now rewrite (trimStart_of_solid _ Hsolid).
Qed.

(** The filter text as the test uses it. *)
Lemma normalize_toLowerCase (t : string) :
  trim (toLowerCase (toLowerCase t)) = trim (toLowerCase t).
Proof. now rewrite toLowerCase_idempotent. Qed.

Lemma normalize_trim (t : string) :
  trim (toLowerCase (trim t)) = trim (toLowerCase t).
Proof. now rewrite toLowerCase_trim, trim_idempotent. Qed.

Lemma join_cons (x : string) (l : list string) : join (x :: l) = x ++ join l.
Proof.
  unfold join. destruct l as [|y l]; simpl; [now rewrite append_empty_r|].
  reflexivity.
Qed.

Lemma join_app (l1 l2 : list string) : join (l1 ++ l2) = join l1 ++ join l2.
Proof.
  induction l1 as [|x l1 IH]; [reflexivity|].
  cbn [app]. now rewrite !join_cons, IH, append_assoc.
Qed.

End MoreStringFacts.

Lemma existsb_pointwise {A} (f g : A -> bool) (l : list A) :
  (forall a, f a = g a) -> existsb f l = existsb g l.
Proof.
  intros Hfg. induction l as [|a l IH]; simpl; [reflexivity|].
  now rewrite Hfg, IH.
Qed.

Section MoreCandidateFilter.

Variable style_option : string.

(** The loop on any list: an exception at the first child that passes
    the test without being a node, the clones of the passing children
    otherwise. *)
Lemma forEach_FilteredChildren_each_any state d items : forall options,
  forEach (FilteredChildren_each style_option state d) items options
  = if existsb (breaks_filter state d) items
    then TypeError
    else Ok (options ++ map (with_listener style_option)
                            (List.filter (passes state d) items)).
Proof.
  induction items as [|c items IH]; intros options.
  - simpl. now rewrite app_nil_r.
  - cbn [forEach existsb List.filter]. unfold breaks_filter at 1.
    unfold FilteredChildren_each. fold (passes state d c).
    destruct (passes state d c) eqn:Hp; cbn [andb orb bind].
    + destruct (is_vnode c) eqn:Hc; cbn [negb].
      * rewrite (cloneOption_vnode style_option c Hc). cbn [bind orb].
        rewrite IH. destruct (existsb _ items); [reflexivity|].
        now rewrite <- app_assoc.
      * now rewrite (cloneOption_not_vnode style_option c Hc).
    + apply IH.
Qed.

Lemma FilteredChildren_any state d items :
  FilteredChildren style_option (JArr items) state d
  = if existsb (breaks_filter state d) items
    then TypeError
    else Ok (map (with_listener style_option)
                 (List.filter (passes state d) items)).
Proof.
  unfold FilteredChildren. destruct items as [|c items]; [reflexivity|].
  cbn [List.length Nat.ltb Nat.leb].
  now rewrite forEach_FilteredChildren_each_any.
Qed.

(** The test reads the state through the lowercased and trimmed filter
    text only. *)
Lemma passes_same_filter st1 st2 d c :
  trim (toLowerCase (filter st1)) = trim (toLowerCase (filter st2)) ->
  passes st1 d c = passes st2 d c.
Proof. unfold passes. now intros ->. Qed.

Lemma FilteredChildren_same_filter st1 st2 d children :
  trim (toLowerCase (filter st1)) = trim (toLowerCase (filter st2)) ->
  FilteredChildren style_option children st1 d
  = FilteredChildren style_option children st2 d.
Proof.
  intros Hsame. destruct children as [| | | |items|]; try reflexivity.
  rewrite !FilteredChildren_any.
  rewrite (existsb_pointwise _ (breaks_filter st2 d)).
  - rewrite (List.filter_ext _ (passes st2 d)); [reflexivity|].
    intros c. now apply passes_same_filter.
  - intros c. unfold breaks_filter. now rewrite (passes_same_filter st1 st2).
Qed.

End MoreCandidateFilter.

(** X1.  FilteredChildren on any array, whatever it holds: it raises
    exactly when some child passes the test without being a node; if
    none does, it returns the clones of the children that pass, in the
    order of the array, and the other children are left out. *)
Theorem FilteredChildren_behaviour :
  forall (style_option : string) (items : list jsvalue) (state : State)
         (disableFiltering : bool),
    FilteredChildren style_option (JArr items) state disableFiltering
    = if existsb (breaks_filter state disableFiltering) items
      then TypeError
      else Ok (map (with_listener style_option)
                   (List.filter (passes state disableFiltering) items)).
Proof. intros. apply FilteredChildren_any. Qed.

(** X2.  With a filter text that is empty or made of white space only,
    and filtering enabled or not, every option of a list of nodes is a
    candidate. *)
Theorem FilteredChildren_blank_filter_all :
  forall (style_option : string) (state : State) (disableFiltering : bool)
         (items : list jsvalue),
    trim (filter state) = "" ->
    forallb is_vnode items = true ->
    FilteredChildren style_option (JArr items) state disableFiltering
    = Ok (map (with_listener style_option) items).
Proof.
  intros style_option state d items Hblank Hall.
  apply FilteredChildren_blank_filter; [|exact Hall].
  rewrite <- toLowerCase_trim, Hblank. reflexivity.
Qed.

Lemma FilteredChildren_blank_filter_all_witness :
  trim (filter (example_state "   " (JStr ""))) = ""
  /\ forallb is_vnode example_options = true
  /\ FilteredChildren "option" (JArr example_options)
                      (example_state "   " (JStr "")) false
     = Ok (map (with_listener "option") example_options).
Proof.
  split; [reflexivity | split; [reflexivity|]].
  apply (FilteredChildren_blank_filter_all
           "option" (example_state "   " (JStr "")) false example_options);
    reflexivity.
Defined.

(** X3.  The letter case of the filter text and the white space around
    it do not matter: the filter text, its lower case and its trimmed
    form give the same result, exceptions included, on any children. *)
Theorem FilteredChildren_filter_case_and_space :
  forall (style_option : string) (children : jsvalue)
         (oc ae ex : bool) (v : jsvalue) (t : string) (disableFiltering : bool),
    FilteredChildren style_option children
                     (mkState oc ae ex (toLowerCase t) v) disableFiltering
    = FilteredChildren style_option children
                       (mkState oc ae ex t v) disableFiltering
    /\ FilteredChildren style_option children
                        (mkState oc ae ex (trim t) v) disableFiltering
       = FilteredChildren style_option children
                          (mkState oc ae ex t v) disableFiltering.
Proof.
  intros. split; apply FilteredChildren_same_filter; cbn [filter].
  - apply normalize_toLowerCase.
  - apply normalize_trim.
Qed.

(** X4.  Typing on narrows the list.  When the lowercased and trimmed
    filter text of one state occurs in that of a second state, and
    FilteredChildren succeeds for the first, it succeeds for the second
    as well and every candidate of the second is a candidate of the
    first. *)
Theorem FilteredChildren_narrows :
  forall (style_option : string) (items : list jsvalue) (st1 st2 : State)
         (disableFiltering : bool) (candidates1 : list jsvalue),
    includes (trim (toLowerCase (filter st2)))
             (trim (toLowerCase (filter st1))) = true ->
    FilteredChildren style_option (JArr items) st1 disableFiltering
    = Ok candidates1 ->
    exists candidates2,
      FilteredChildren style_option (JArr items) st2 disableFiltering
      = Ok candidates2
      /\ incl candidates2 candidates1.
Proof.
  intros style_option items st1 st2 d candidates1 Hinc Hrun.
  assert (Hpass : forall c, passes st2 d c = true -> passes st1 d c = true).
  { intros c. unfold passes. rewrite !orb_true_iff.
    intros [Hc|Hd]; [left | now right].
    exact (includes_trans _ _ _ Hc Hinc). }
  rewrite FilteredChildren_any in Hrun. rewrite FilteredChildren_any.
  destruct (existsb (breaks_filter st1 d) items) eqn:E1; [discriminate|].
  injection Hrun as <-.
  assert (E2 : existsb (breaks_filter st2 d) items = false).
  { destruct (existsb (breaks_filter st2 d) items) eqn:E2; [|reflexivity].
    apply existsb_exists in E2 as (c & Hin & Hb).
    unfold breaks_filter in Hb. apply andb_true_iff in Hb as [Hp Hn].
    assert (Hex : existsb (breaks_filter st1 d) items = true).
    { apply existsb_exists. exists c. split; [exact Hin|].
      unfold breaks_filter. now rewrite (Hpass c Hp), Hn. }
    congruence. }
  rewrite E2. eexists. split; [reflexivity|].
  intros r Hr. apply in_map_iff in Hr as (c & <- & Hc).
  apply filter_In in Hc as [Hin Hp].
  apply in_map_iff. exists c. split; [reflexivity|].
  apply filter_In. auto.
Qed.

Lemma FilteredChildren_narrows_witness :
  includes (trim (toLowerCase (filter (example_state "ana" (JStr "")))))
           (trim (toLowerCase (filter (example_state "an" (JStr ""))))) = true
  /\ exists candidates2,
       FilteredChildren "option" (JArr example_options)
                        (example_state "ana" (JStr "")) false
       = Ok candidates2
       /\ incl candidates2
               (map (with_listener "option")
                    [option_node "2" "Peanut"; option_node "3" "Banana"]).
Proof.
  split; [reflexivity|].
  apply (FilteredChildren_narrows
           "option" example_options
           (example_state "an" (JStr "")) (example_state "ana" (JStr ""))
           false); reflexivity.
Defined.

(** X5.  Every candidate that FilteredChildren returns is a node that
    carries the handleClick listener; with filtering enabled its text
    contains the lowercased and trimmed filter text. *)
Theorem FilteredChildren_candidates_are_clickable :
  forall (style_option : string) (items : list jsvalue) (state : State)
         (disableFiltering : bool) (candidates : list jsvalue),
    FilteredChildren style_option (JArr items) state disableFiltering
    = Ok candidates ->
    forall r, In r candidates ->
      is_vnode r = true
      /\ node_onMouseDown r = Some handleClickListener
      /\ (disableFiltering = false ->
          includes (textContent r) (trim (toLowerCase (filter state))) = true).
Proof.
  intros style_option items state d candidates Hrun r Hr.
  rewrite FilteredChildren_any in Hrun.
  destruct (existsb (breaks_filter state d) items) eqn:E; [discriminate|].
  injection Hrun as <-.
  apply in_map_iff in Hr as (c & <- & Hc).
  apply filter_In in Hc as [Hin Hp].
  assert (Hnode : is_vnode c = true).
  { destruct (is_vnode c) eqn:Hv; [reflexivity|].
    assert (Hex : existsb (breaks_filter state d) items = true).
    { apply existsb_exists. exists c. split; [exact Hin|].
      unfold breaks_filter. now rewrite Hp, Hv. }
    congruence. }
  destruct c as [| | | | |v cls h ch]; try discriminate.
  split; [reflexivity | split; [reflexivity|]].
  intros ->. unfold passes in Hp. now rewrite orb_false_r in Hp.
Qed.

Lemma FilteredChildren_candidates_are_clickable_witness :
  FilteredChildren "option" (JArr example_options)
                   (example_state "an" (JStr "")) false
  = Ok (map (with_listener "option")
            [option_node "2" "Peanut"; option_node "3" "Banana"])
  /\ node_onMouseDown (with_listener "option" (option_node "3" "Banana"))
     = Some handleClickListener.
Proof.
  split; [reflexivity|].
  apply (FilteredChildren_candidates_are_clickable
           "option" example_options (example_state "an" (JStr "")) false
           (map (with_listener "option")
                [option_node "2" "Peanut"; option_node "3" "Banana"])
           eq_refl).
  right. left. reflexivity.
Defined.

Lemma textContent_array_children (v cls : option string)
      (h : option listener) (kids : list jsvalue) :
  textContent (VNode v cls h (JArr kids))
  = fold_right (fun c rest => (textContent c ++ rest)%string) "" kids.
Proof.
  cbn [textContent]. induction kids as [|c kids IH]; [reflexivity|].
  cbn [map fold_right]. now rewrite join_cons, IH.
Qed.

(** X6.  What textContent returns, case by case.  A string is its own
    text.  The text of a node with an array of children is the texts of
    the children, appended in their order, and the empty string without
    children; the text of a node with one child that is not an array is
    the text of that child.  Everything else ([null], [undefined], a
    boolean, an array met as a child) has the empty text.  Hence the
    text of a node splits along its children and a child of the last
    kind adds nothing to it. *)
Theorem textContent_children :
  forall (v v1 v2 : option string) (cls cls1 cls2 : option string)
         (h h1 h2 : option listener),
    (forall s : string, textContent (JStr s) = s)
    /\ (forall kids : list jsvalue,
           textContent (VNode v cls h (JArr kids))
           = fold_right (fun c rest => (textContent c ++ rest)%string)
                        "" kids)
    /\ (forall c : jsvalue,
           isArray c = false ->
           textContent (VNode v cls h c) = textContent c)
    /\ (forall c : jsvalue,
           is_vnode c = false -> is_string c = false -> textContent c = "")
    /\ (forall kids1 kids2 : list jsvalue,
           textContent (VNode v cls h (JArr (kids1 ++ kids2)))
           = (textContent (VNode v1 cls1 h1 (JArr kids1))
              ++ textContent (VNode v2 cls2 h2 (JArr kids2)))%string)
    /\ (forall (kids1 kids2 : list jsvalue) (c : jsvalue),
           is_vnode c = false -> is_string c = false ->
           textContent (VNode v cls h (JArr (kids1 ++ c :: kids2)))
           = textContent (VNode v cls h (JArr (kids1 ++ kids2)))).
Proof.
  intros. split; [reflexivity|].
  split; [apply textContent_array_children|].
  split; [intros c Hc; destruct c; try discriminate; reflexivity|].
  split; [intros c Hn Hs; destruct c; try discriminate; reflexivity|].
  split.
  - intros kids1 kids2. cbn [textContent]. now rewrite map_app, join_app.
  - intros kids1 kids2 c Hn Hs. cbn [textContent].
    rewrite !map_app, !join_app. cbn [map]. rewrite join_cons.
    destruct c; try discriminate; reflexivity.
Qed.

(* ================================================================== *)
(** * Further properties: lookup and mounting                          *)
(* ================================================================== *)

Section MoreInitialValue.

Variable value : option string.

(** The loop on any list: an exception if a child is [null] or
    [undefined], wherever it stands; the last match otherwise. *)
Lemma forEach_findChildByValue_each_any (items : list jsvalue) :
  forall retVal : RetVal,
    forEach (findChildByValue_each value) items retVal
    = if existsb nullish items
      then TypeError
      else Ok (match last_with_value value items with
               | Some c => {| child := Some c; text := textContent c |}
               | None => retVal
               end).
Proof.
  induction items as [|c items IH]; intros retVal; [reflexivity|].
  cbn [forEach existsb last_with_value].
  destruct (nullish c) eqn:Hc; cbn [orb].
  - destruct c; try discriminate; reflexivity.
  - rewrite (findChildByValue_each_defined value retVal c Hc). cbn [bind].
    rewrite IH. destruct (existsb nullish items); [reflexivity|].
    destruct (last_with_value value items), (has_value value c); reflexivity.
Qed.

Lemma findChildByValue_any (items : list jsvalue) :
  findChildByValue (JArr items) value
  = if existsb nullish items
    then TypeError
    else Ok {| child := last_with_value value items;
               text := text_of (last_with_value value items) |}.
Proof.
  unfold findChildByValue. destruct items as [|c items]; [reflexivity|].
  cbn [List.length Nat.ltb Nat.leb].
  rewrite forEach_findChildByValue_each_any.
  destruct (existsb nullish (c :: items)); [reflexivity|].
  destruct (last_with_value value (c :: items)); reflexivity.
Qed.

Lemma findChildByValue_not_array (children : jsvalue) :
  isArray children = false ->
  findChildByValue children value = Ok {| child := None; text := "" |}.
Proof. destruct children; try discriminate; reflexivity. Qed.

Lemma initialFilter_any (items : list jsvalue) :
  initialFilter (JArr items) value
  = if value_truthy value
    then if existsb nullish items
         then TypeError
         else Ok (text_of (last_with_value value items))
    else Ok "".
Proof.
  unfold initialFilter. destruct (value_truthy value); [|reflexivity].
  rewrite findChildByValue_any.
  destruct (existsb nullish items); reflexivity.
Qed.

Lemma initialFilter_not_array (children : jsvalue) :
  isArray children = false -> initialFilter children value = Ok "".
Proof.
  intros Hna. unfold initialFilter. destruct (value_truthy value); [|reflexivity].
  now rewrite (findChildByValue_not_array children Hna).
Qed.

End MoreInitialValue.

Lemma value_truthy_some (value : option string) :
  value_truthy value = true -> exists s, value = Some s /\ s <> "".
Proof.
  destruct value as [s|]; [|discriminate]. simpl. intros Hs.
  exists s. split; [reflexivity|]. intros ->. discriminate.
Qed.

(** X7.  findChildByValue on any children.  On an array it raises
    exactly when a child is [null] or [undefined], wherever it stands
    and whether or not a child matches; otherwise it returns the last
    child whose value is the one looked up together with the text of
    that child, or [null] and the empty text.  On anything that is not
    an array it returns [null] and the empty text. *)
Theorem findChildByValue_behaviour :
  forall (value : option string),
    (forall items : list jsvalue,
        findChildByValue (JArr items) value
        = if existsb nullish items
          then TypeError
          else Ok {| child := last_with_value value items;
                     text := text_of (last_with_value value items) |})
    /\ (forall children : jsvalue,
           isArray children = false ->
           findChildByValue children value
           = Ok {| child := None; text := "" |}).
Proof.
  intros value. split.
  - apply findChildByValue_any.
  - apply findChildByValue_not_array.
Qed.

(** X8.  When Dropdown mounts, the panel is collapsed and the value cell
    holds the [value] prop, or the empty string without one.  If the
    filter text it starts with is not empty, that text is the text of an
    option of the list whose value is the value the cell holds: the last
    such option. *)
Theorem Dropdown_mount_state :
  forall (children : jsvalue) (value_prop : option string) (oc ex : bool)
         (state : State),
    Dropdown_mount children value_prop oc ex = Ok state ->
    onChange state = oc
    /\ alwaysExpanded state = ex
    /\ expanded state = false
    /\ value state = value_or_empty value_prop
    /\ (filter state <> "" ->
        exists items c s,
          children = JArr items
          /\ value_prop = Some s
          /\ value state = JStr s
          /\ last_with_value (Some s) items = Some c
          /\ has_value (Some s) c = true
          /\ filter state = textContent c).
Proof.
  intros children value_prop oc ex state. unfold Dropdown_mount.
  destruct (initialFilter (default_children children) value_prop) as [initial|] eqn:E;
    [|discriminate].
  cbn [bind]. intros [= <-]. cbn.
  repeat (split; [reflexivity|]).
  intros Hne.
  destruct children as [| | | |items|];
    try (rewrite initialFilter_not_array in E by reflexivity;
         injection E as <-; contradiction).
  - cbn [default_children] in E. rewrite initialFilter_any in E.
    destruct (value_truthy value_prop); cbn in E; injection E as <-; contradiction.
  - cbn [default_children] in E. rewrite initialFilter_any in E.
    destruct (value_truthy value_prop) eqn:Hv; [|injection E as <-; contradiction].
    destruct (existsb nullish items); [discriminate|]. injection E as <-.
    destruct (value_truthy_some value_prop Hv) as (s & -> & Hs).
    destruct (last_with_value (Some s) items) as [c|] eqn:El;
      [|contradiction].
    exists items, c, s.
    do 3 (split; [reflexivity|]). split; [exact El|].
    split; [|reflexivity].
    apply last_with_value_some in El as (before & after & _ & Hc & _).
    exact Hc.
Qed.

Lemma Dropdown_mount_state_witness :
  Dropdown_mount (JArr example_options) (Some "3") true false
  = Ok (mkState true false false "Banana" (JStr "3"))
  /\ expanded (mkState true false false "Banana" (JStr "3")) = false.
Proof.
  split; [reflexivity|].
  apply (Dropdown_mount_state (JArr example_options) (Some "3") true false
           (mkState true false false "Banana" (JStr "3")) eq_refl).
Defined.

(** The creation of the state raises exactly when a non-empty [value]
    prop is given and the children are an array that holds [null] or
    [undefined]. *)
Lemma Dropdown_mount_raises_iff :
  forall (children : jsvalue) (value : option string) (oc ex : bool),
    Dropdown_mount children value oc ex = TypeError
    <-> value_truthy value = true
        /\ exists items, children = JArr items
                         /\ existsb nullish items = true.
Proof.
  intros children value oc ex. unfold Dropdown_mount.
  destruct children as [| | | |items|];
    try (rewrite initialFilter_not_array by reflexivity; cbn [bind];
         split; [discriminate | intros (_ & items & Hc & _); discriminate]).
  - cbn [default_children]. rewrite initialFilter_any.
    destruct (value_truthy value); cbn;
      (split; [discriminate | intros (_ & items & Hc & _); discriminate]).
  - cbn [default_children]. rewrite initialFilter_any.
    destruct (value_truthy value) eqn:Hv.
    + destruct (existsb nullish items) eqn:Hn; cbn [bind].
      * split; [intros _ | reflexivity].
        split; [reflexivity|]. now exists items.
      * split; [discriminate|]. intros (_ & items' & [= <-] & Hn').
        congruence.
    + cbn [bind]. split; [discriminate | intros [Hf _]; discriminate].
Qed.

(** X9.  The first render, the creation of the state followed by
    FilteredChildren, raises exactly when the children are an array and
    either a non-empty [value] prop meets a child that is [null] or
    [undefined], or some child passes the filter test for the initial
    filter text without being a node.  Without children, and with
    children that are not an array (a single option), it never
    raises. *)
Theorem Dropdown_first_render_raises_iff :
  forall (style_option : string) (children : jsvalue)
         (value : option string) (oc ex disableFiltering : bool),
    Dropdown_first_render style_option children value oc ex disableFiltering
    = TypeError
    <-> exists items,
          children = JArr items
          /\ ((value_truthy value = true /\ existsb nullish items = true)
              \/ exists state,
                   Dropdown_mount children value oc ex = Ok state
                   /\ existsb (breaks_filter state disableFiltering) items
                      = true).
Proof.
  intros style_option children value oc ex d.
  unfold Dropdown_first_render.
  destruct (Dropdown_mount children value oc ex) as [state|] eqn:Hm;
    cbn [bind].
  - destruct children as [| | | |items|];
      try (cbn; split; [discriminate
                       | intros (items & Hc & _); discriminate]).
    cbn [default_children]. rewrite FilteredChildren_any.
    destruct (existsb (breaks_filter state d) items) eqn:Hb; cbn [bind].
    + split; [intros _ | reflexivity].
      exists items. split; [reflexivity|]. right. now exists state.
    + split; [discriminate|].
      intros (items' & [= <-] & [[Hv Hn] | (state' & [= <-] & Hb')]).
      * assert (Hraise : Dropdown_mount (JArr items) value oc ex = TypeError).
        { apply Dropdown_mount_raises_iff. split; [exact Hv|].
          now exists items. }
        congruence.
      * congruence.
  - split; [intros _ | reflexivity].
    apply Dropdown_mount_raises_iff in Hm as (Hv & items & -> & Hn).
    exists items. split; [reflexivity|]. now left.
Qed.

(** A conditional child that is [null] breaks the first render of a
    widget without value, although its state is created. *)
Lemma Dropdown_first_render_null_child :
  forall (style_option : string) (oc ex d : bool),
    Dropdown_mount (JArr [option_node "1" "Carrot"; JNull]) None oc ex
    = Ok (mkState oc ex false "" (JStr ""))
    /\ Dropdown_first_render style_option
                             (JArr [option_node "1" "Carrot"; JNull])
                             None oc ex d
       = TypeError.
Proof. intros. split; reflexivity. Qed.

(* ================================================================== *)
(** * Further properties: sequences of events                          *)
(* ================================================================== *)

(** Runs one event through its listeners. *)
Ltac run_page :=
  unfold step, btn_expand_onClick, placeholder_onClick, input_focus,
         input_onBlur, in_world;
  cbn [world input_focused pending_collapses];
  run_handler.

(** Splits on the tests a listener makes, the test of the value first. *)
Ltac split_cases :=
  repeat match goal with
         | |- context [is_empty_string ?v] =>
             destruct (is_empty_string v) eqn:?; cbn [negb]
         | |- context [if ?b then _ else _] => destruct b eqn:?
         | |- context [match pending_collapses ?q with _ => _ end] =>
             destruct (pending_collapses q)
         end.

Section EventFacts.

Context {num : Type} `{JSNumber num}.

(** No event writes the props. *)
Lemma step_props (p : Page num) (e : event) :
  onChange (hooks (world (step p e))) = onChange (hooks (world p))
  /\ alwaysExpanded (hooks (world (step p e)))
     = alwaysExpanded (hooks (world p)).
Proof.
  destruct e; run_page;
    split_cases; cbn; auto.
Qed.

(** What an event does to the value cell and to the calls of the
    callback: only a mouse button down on a candidate and a click on the
    clear button touch them. *)
Lemma step_commit (p : Page num) (e : event) :
  let state := hooks (world p) in
  let q := step p e in
  match e with
  | MouseDown target =>
      let v := or_else (target_value target) (getAttribute_value target) in
      value (hooks (world q)) = v
      /\ emitted (world q)
         = emitted (world p) ++ (if onChange state then [v] else [])
  | ClickClear =>
      if is_empty_string (value state)
      then value (hooks (world q)) = value state
           /\ emitted (world q) = emitted (world p)
      else value (hooks (world q)) = JStr ""
           /\ emitted (world q)
              = emitted (world p)
                ++ (if onChange state then [JStr ""] else [])
  | _ =>
      value (hooks (world q)) = value state
      /\ emitted (world q) = emitted (world p)
  end.
Proof.
  destruct e; run_page;
    split_cases; cbn; rewrite ?app_nil_r; auto.
Qed.

(** A waiting callback stays until it runs: no other event removes
    it. *)
Lemma step_pending (p : Page num) (e : event) :
  e <> Timeout -> (pending_collapses p <= pending_collapses (step p e))%nat.
Proof.
  intros He. destruct e; try congruence; run_page;
    split_cases; cbn; lia.
Qed.

Lemma run_pending (events : list event) : forall p : Page num,
  ~ In Timeout events ->
  (pending_collapses p <= pending_collapses (run p events))%nat.
Proof.
  induction events as [|e events IH]; intros p Hno; [apply Nat.le_refl|].
  cbn [run fold_left]. fold (run (step p e) events).
  eapply Nat.le_trans.
  - apply (step_pending p e). intros ->. apply Hno. now left.
  - apply IH. intros Hin. apply Hno. now right.
Qed.

Lemma run_app (p : Page num) (es1 es2 : list event) :
  run p (es1 ++ es2) = run (run p es1) es2.
Proof. unfold run. apply fold_left_app. Qed.

(** The second of two clicks on the clear button finds nothing to do. *)
Lemma btn_clear_onClick_on_cleared (w : World num) :
  filter (hooks w) = "" -> value (hooks w) = JStr "" ->
  dispatch btn_clear_onClick w = w.
Proof.
  intros Hf Hv. unfold dispatch, btn_clear_onClick, seq, skip.
  rewrite Hf, Hv. reflexivity.
Qed.

End EventFacts.

(** X10.  With a callback, the host is never out of date: from a page
    on which the callback was not called yet, after any sequence of
    events the value cell holds the argument of the latest call of the
    callback, or still the value it held at the start if there was no
    call. *)
Theorem callback_knows_value :
  forall (num : Type) (N : JSNumber num) (p : Page num) (events : list event),
    onChange (hooks (world p)) = true ->
    emitted (world p) = [] ->
    let q := run p events in
    value (hooks (world q)) = last (emitted (world q)) (value (hooks (world p))).
Proof.
  intros num N p events Hcb Hnone q. subst q.
  set (v0 := value (hooks (world p))).
  assert (Hinv : onChange (hooks (world p)) = true
                 /\ value (hooks (world p)) = last (emitted (world p)) v0).
  { split; [exact Hcb|]. now rewrite Hnone. }
  clearbody v0. clear Hcb Hnone. revert p Hinv.
  induction events as [|e events IH]; intros p [Hcb Hsync]; [exact Hsync|].
  cbn [run fold_left]. fold (run (step p e) events). apply IH.
  destruct (step_props p e) as [Hoc _]. split; [congruence|].
  pose proof (step_commit p e) as Hstep. cbn zeta in Hstep.
  destruct e; try (destruct Hstep as [-> ->]; exact Hsync).
  - destruct Hstep as [-> ->]. rewrite Hcb. now rewrite last_last.
  - destruct (is_empty_string (value (hooks (world p)))).
    + destruct Hstep as [-> ->]. exact Hsync.
    + destruct Hstep as [-> ->]. rewrite Hcb. now rewrite last_last.
Qed.

Lemma callback_knows_value_witness :
  onChange (hooks (world (example_page "" (JStr "")))) = true
  /\ emitted (world (example_page "" (JStr ""))) = []
  /\ let q := run (example_page "" (JStr ""))
                  [Focus ""; Input "pea"; MouseDown peanut_target;
                   Blur; Timeout] in
     value (hooks (world q)) = last (emitted (world q)) (JStr "").
Proof.
  split; [reflexivity | split; [reflexivity|]].
  apply (callback_knows_value Z _ (example_page "" (JStr ""))
           [Focus ""; Input "pea"; MouseDown peanut_target; Blur; Timeout]);
    reflexivity.
Defined.

(** X11.  Without a callback nothing is ever called: after any sequence
    of events the calls are those of the start. *)
Theorem no_callback_no_call :
  forall (num : Type) (N : JSNumber num) (p : Page num) (events : list event),
    onChange (hooks (world p)) = false ->
    emitted (world (run p events)) = emitted (world p).
Proof.
  intros num N p events. revert p.
  induction events as [|e events IH]; intros p Hcb; [reflexivity|].
  cbn [run fold_left]. fold (run (step p e) events).
  destruct (step_props p e) as [Hoc _].
  rewrite IH by congruence.
  pose proof (step_commit p e) as Hstep. cbn zeta in Hstep.
  rewrite Hcb in Hstep.
  destruct e; try (destruct Hstep as [_ ->]; reflexivity).
  - destruct Hstep as [_ ->]. now rewrite app_nil_r.
  - destruct (is_empty_string (value (hooks (world p))));
      destruct Hstep as [_ ->]; now rewrite ?app_nil_r.
Qed.

Lemma no_callback_no_call_witness :
  onChange (hooks (world (mkPage (mkWorld (mkState false false false "" (JStr "2"))
                                          [] (example_dom 500)) false 0)))
  = false
  /\ emitted (world (run (mkPage (mkWorld (mkState false false false "" (JStr "2"))
                                          [] (example_dom 500)) false 0)
                         [MouseDown peanut_target; ClickClear]))
     = [].
Proof.
  split; [reflexivity|].
  apply (no_callback_no_call Z _
           (mkPage (mkWorld (mkState false false false "" (JStr "2"))
                            [] (example_dom 500)) false 0)
           [MouseDown peanut_target; ClickClear]).
  reflexivity.
Defined.

(** X12.  Editing the text, moving the focus, the expand button, the
    placeholder and the callbacks of the timer never change the value
    cell and never call the callback: the committed value changes on a
    mouse button down on a candidate and on the clear button only. *)
Theorem only_commit_events_change_value :
  forall (num : Type) (N : JSNumber num) (p : Page num) (e : event),
    match e with
    | MouseDown _ | ClickClear => True
    | _ => value (hooks (world (step p e))) = value (hooks (world p))
           /\ emitted (world (step p e)) = emitted (world p)
    end.
Proof.
  intros num N p e. pose proof (step_commit p e) as Hstep.
  cbn zeta in Hstep. destruct e; auto.
Qed.

(** X13.  A second click on the clear button changes nothing: it calls
    nothing and leaves the world as the first click left it. *)
Theorem btn_clear_onClick_twice :
  forall (num : Type) (w : World num),
    dispatch btn_clear_onClick (dispatch btn_clear_onClick w)
    = dispatch btn_clear_onClick w.
Proof.
  intros num w.
  destruct (btn_clear_onClick_cells w) as [Hf Hv].
  now apply btn_clear_onClick_on_cleared.
Qed.

(** X14.  Choosing a candidate and then clearing: with a callback and a
    candidate whose value is not the empty string, the callback is
    called with that value and then with the empty string, and the
    widget ends collapsed with empty filter text and empty value. *)
Theorem click_then_clear :
  forall (num : Type) (w : World num) (target : Target),
    onChange (hooks w) = true ->
    is_empty_string (or_else (target_value target) (getAttribute_value target))
    = false ->
    let v := or_else (target_value target) (getAttribute_value target) in
    let w' := dispatch btn_clear_onClick
                (dispatch (fun state => handleClick state target) w) in
    filter (hooks w') = ""
    /\ value (hooks w') = JStr ""
    /\ expanded (hooks w') = false
    /\ emitted w' = emitted w ++ [v; JStr ""].
Proof.
  intros num w target Hcb Hv v w'. subst v w'.
  run_handler. rewrite Hcb.
  cbn [hooks emitted dom onChange alwaysExpanded expanded filter value].
  rewrite Hv. cbn [negb].
  destruct (innerText target =? "")%string eqn:Et;
    cbn [negb hooks emitted dom onChange alwaysExpanded expanded filter value];
    rewrite <- app_assoc; repeat split; try reflexivity.
  now apply String.eqb_eq in Et.
Qed.

Lemma click_then_clear_witness :
  onChange (hooks (example_world "pea" (JStr ""))) = true
  /\ is_empty_string (or_else (target_value peanut_target)
                              (getAttribute_value peanut_target)) = false
  /\ emitted (dispatch btn_clear_onClick
                (dispatch (fun state => handleClick state peanut_target)
                          (example_world "pea" (JStr ""))))
     = [JStr "2"; JStr ""].
Proof.
  split; [reflexivity | split; [reflexivity|]].
  apply (click_then_clear Z (example_world "pea" (JStr "")) peanut_target);
    reflexivity.
Defined.

(** X15.  A collapse that was scheduled cannot be taken back.  After the
    input lost the focus over an expanded panel, whatever events follow
    before the callback runs (the focus coming back, typing, clicks),
    the callback still waits, and when it runs it collapses the
    panel. *)
Theorem blur_collapse_not_cancelled :
  forall (num : Type) (N : JSNumber num) (p : Page num) (events : list event),
    expanded (hooks (world p)) = true ->
    ~ In Timeout events ->
    let q := run p (Blur :: events) in
    (0 < pending_collapses q)%nat
    /\ expanded (hooks (world (step q Timeout))) = false.
Proof.
  intros num N p events Hexp Hno q. subst q.
  cbn [run fold_left]. fold (run (step p Blur) events).
  assert (Hone : (1 <= pending_collapses (step p Blur))%nat).
  { run_page. rewrite Hexp. cbn. lia. }
  pose proof (run_pending events (step p Blur) Hno) as Hmono.
  split; [lia|].
  unfold step at 1.
  destruct (pending_collapses (run (step p Blur) events)); [lia|].
  reflexivity.
Qed.

Lemma blur_collapse_not_cancelled_witness :
  expanded (hooks (world (step (example_page "" (JStr "")) (Focus "")))) = true
  /\ ~ In Timeout [Focus ""; Input "p"]
  /\ let q := run (step (example_page "" (JStr "")) (Focus ""))
                  (Blur :: [Focus ""; Input "p"]) in
     input_focused q = true
     /\ expanded (hooks (world (step q Timeout))) = false.
Proof.
  split; [reflexivity|].
  assert (Hno : ~ In Timeout [Focus ""; Input "p"]).
  { intros [Hin|[Hin|[]]]; discriminate. }
  split; [exact Hno|].
  split; [reflexivity|].
  apply (blur_collapse_not_cancelled Z _
           (step (example_page "" (JStr "")) (Focus ""))
           [Focus ""; Input "p"] eq_refl Hno).
Defined.

(** X16.  The expand button.  A click leaves the focus on the input.  If
    the input had the focus the panel changes sides; if it had not, the
    panel ends expanded whatever it was before, since the focus listener
    runs after the change of sides. *)
Theorem btn_expand_onClick_expansion :
  forall (num : Type) (N : JSNumber num) (p : Page num) (t : string),
    let q := step p (ClickExpand t) in
    input_focused q = true
    /\ expanded (hooks (world q))
       = if input_focused p
         then negb (expanded (hooks (world p)))
         else true.
Proof.
  intros num N p t. run_page.
  destruct (input_focused p) eqn:Hf; cbn; [auto|].
  destruct (negb (t =? "")%string || alwaysExpanded (hooks (world p))); auto.
Qed.

(* ================================================================== *)
(** * Further properties: the panel in whole pixels                    *)
(* ================================================================== *)

(** X17.  On measures in whole pixels that the code computes exactly,
    after resizeToBounds the panel is never asked to reach below the
    line 10 units above the bottom of the window, and never asked to be
    higher than its content. *)
Theorem resizeToBounds_fits_window :
  forall d : Dom Z,
    exact_pixels d = true ->
    let d' := resizeToBounds d in
    (options_y d + requested_height d' <= window_innerHeight d - 10
     /\ requested_height d' <= options_scrollHeight d)%Z.
Proof.
  intros d _ d'. subst d'. unfold requested_height.
  destruct (resizeToBounds_styles d) as [_ Hh].
  destruct (resizeToBounds_measures d) as (_ & _ & Hs & _).
  cbn zeta in Hs. rewrite Hh, Hs. cbn [gtb add sub lit JSNumber_Z].
  destruct (Z.gtb_spec (options_scrollHeight d + options_y d)
                       (window_innerHeight d - 10)); lia.
Qed.

Lemma resizeToBounds_fits_window_witness :
  exact_pixels (example_dom 500) = true
  /\ (options_y (example_dom 500)
       + requested_height (resizeToBounds (example_dom 500))
       <= window_innerHeight (example_dom 500) - 10
       /\ requested_height (resizeToBounds (example_dom 500))
          <= options_scrollHeight (example_dom 500))%Z.
Proof.
  split; [reflexivity|].
  apply (resizeToBounds_fits_window (example_dom 500)).
  reflexivity.
Defined.

(** X18.  The height has no lower bound: on measures in whole pixels
    that the code computes exactly, when the top of the panel lies below
    the line 10 units above the bottom of the window, the height
    assigned is a negative number of pixels. *)
Theorem resizeToBounds_negative_height :
  forall d : Dom Z,
    exact_pixels d = true ->
    (window_innerHeight d - 10 < options_y d)%Z ->
    (0 <= options_scrollHeight d)%Z ->
    exists h : Z,
      options_style_height (resizeToBounds d) = css_px h /\ (h < 0)%Z.
Proof.
  intros d _ Hbelow Hcontent.
  destruct (resizeToBounds_styles d) as [_ Hh].
  rewrite Hh. cbn [gtb add sub lit JSNumber_Z].
  destruct (Z.gtb_spec (options_scrollHeight d + options_y d)
                       (window_innerHeight d - 10)); [|lia].
  eexists. split; [reflexivity | lia].
Qed.

Lemma resizeToBounds_negative_height_witness :
  exact_pixels (mkDom 200 450 120 400 css_empty css_empty)%Z = true
  /\ (window_innerHeight (mkDom 200 450 120 400 css_empty css_empty) - 10
      < options_y (mkDom 200 450 120 400 css_empty css_empty))%Z
  /\ (0 <= options_scrollHeight (mkDom 200 450 120 400 css_empty css_empty))%Z
  /\ exists h : Z,
       options_style_height
         (resizeToBounds (mkDom 200 450 120 400 css_empty css_empty))%Z
       = css_px h /\ (h < 0)%Z.
Proof.
  split; [reflexivity | split; [reflexivity | split; [discriminate|]]].
  apply (resizeToBounds_negative_height
           (mkDom 200 450 120 400 css_empty css_empty)%Z).
  - reflexivity.
  - reflexivity.
  - discriminate.
Defined.

(* ================================================================== *)
(** * Further properties: the earlier revision                         *)
(* ================================================================== *)

Section MoreLegacy.

Variable style_option : string.
Variable state : State.

Lemma Legacy_props_children_join_unreadable (c : jsvalue) :
  legacy_readable c = false -> Legacy.props_children_join c = TypeError.
Proof.
  destruct c as [| | | | |v cls h ch]; try reflexivity.
  destruct ch; try reflexivity. discriminate.
Qed.

(** The loop of the earlier revision on any list. *)
Lemma Legacy_forEach_FilteredChildren_each_any items : forall options,
  forEach (Legacy.FilteredChildren_each style_option state) items options
  = if forallb legacy_readable items
    then Ok (options ++ map (with_listener style_option)
                            (List.filter (legacy_passes state) items))
    else TypeError.
Proof.
  induction items as [|c items IH]; intros options.
  - simpl. now rewrite app_nil_r.
  - cbn [forEach forallb List.filter].
    destruct (legacy_readable c) eqn:Hc; cbn [andb].
    + rewrite (Legacy_FilteredChildren_each_readable
                 style_option state options c Hc).
      cbn [bind]. rewrite IH.
      destruct (forallb legacy_readable items); [|reflexivity].
      rewrite <- app_assoc. destruct (legacy_passes state c); reflexivity.
    + unfold Legacy.FilteredChildren_each at 1.
      now rewrite (Legacy_props_children_join_unreadable c Hc).
Qed.

(** A node whose children are strings reads the same in both
    revisions. *)
Lemma text_only_join (c : jsvalue) :
  text_only c = true ->
  Legacy.props_children_join c = Ok (textContent c).
Proof.
  destruct c as [| | | | |v cls h ch]; try discriminate.
  destruct ch as [| | | |kids|]; try discriminate.
  cbn [text_only Legacy.props_children_join textContent]. intros Hall.
  do 2 f_equal. apply map_ext_in. intros k Hk.
  rewrite forallb_forall in Hall. specialize (Hall k Hk).
  destruct k; try discriminate; reflexivity.
Qed.

Lemma text_only_readable (c : jsvalue) :
  text_only c = true -> legacy_readable c = true /\ is_vnode c = true.
Proof.
  destruct c as [| | | | |v cls h ch]; try discriminate.
  destruct ch; try discriminate. auto.
Qed.

End MoreLegacy.

(** X19.  FilteredChildren of the earlier revision, on any children.  It
    raises unless the children are an array of nodes whose own children
    are arrays, whatever the filter text; on such an array it returns
    the clones of the nodes whose joined, lowercased and trimmed
    children contain the lowercased and trimmed filter text, in the
    order of the array. *)
Theorem Legacy_FilteredChildren_behaviour :
  forall (style_option : string) (children : jsvalue) (state : State),
    Legacy.FilteredChildren style_option children state
    = match children with
      | JArr items =>
          if forallb legacy_readable items
          then Ok (map (with_listener style_option)
                       (List.filter (legacy_passes state) items))
          else TypeError
      | _ => TypeError
      end.
Proof.
  intros style_option children state.
  destruct children as [| | | |items|]; try reflexivity.
  unfold Legacy.FilteredChildren.
  now rewrite Legacy_forEach_FilteredChildren_each_any.
Qed.

(** X20.  On options whose children are an array of strings, the
    earlier revision shows every candidate that the current revision
    shows for the same filter text. *)
Theorem current_candidates_among_legacy :
  forall (style_option : string) (items : list jsvalue) (state : State),
    forallb text_only items = true ->
    exists current legacy,
      FilteredChildren style_option (JArr items) state false = Ok current
      /\ Legacy.FilteredChildren style_option (JArr items) state = Ok legacy
      /\ incl current legacy.
Proof.
  intros style_option items state Hall.
  rewrite forallb_forall in Hall.
  assert (Hnodes : forallb is_vnode items = true).
  { apply forallb_forall. intros c Hc. now apply text_only_readable, Hall. }
  assert (Hread : forallb legacy_readable items = true).
  { apply forallb_forall. intros c Hc. now apply text_only_readable, Hall. }
  rewrite (FilteredChildren_on_nodes style_option state false items Hnodes).
  rewrite (Legacy_FilteredChildren_on_nodes style_option state items Hread).
  do 2 eexists. split; [reflexivity | split; [reflexivity|]].
  intros r Hr. apply in_map_iff in Hr as (c & <- & Hc).
  apply filter_In in Hc as [Hin Hp].
  apply in_map_iff. exists c. split; [reflexivity|].
  apply filter_In. split; [exact Hin|].
  unfold legacy_passes. rewrite (text_only_join c (Hall c Hin)).
  exact (passes_spec_matches state c Hp).
Qed.

Lemma current_candidates_among_legacy_witness :
  forallb text_only legacy_example_options = true
  /\ exists current legacy,
       FilteredChildren "option" (JArr legacy_example_options)
                        (example_state " carrot " (JStr "")) false
       = Ok current
       /\ Legacy.FilteredChildren "option" (JArr legacy_example_options)
                                  (example_state " carrot " (JStr ""))
          = Ok legacy
       /\ incl current legacy.
Proof.
  split; [reflexivity|].
  apply (current_candidates_among_legacy
           "option" legacy_example_options
           (example_state " carrot " (JStr ""))).
  reflexivity.
Defined.

(** A child on which the loop of the earlier findChildByValue raises:
    anything that is not a node, and a node with the value looked up
    whose children are not an array. *)
Lemma Legacy_forEach_findChildByValue_each_any (value : option string)
      (items : list jsvalue) :
  forall retVal : RetVal,
    forEach (Legacy.findChildByValue_each value) items retVal
    = if existsb (fun c => negb (is_vnode c)
                           || (has_value value c && negb (legacy_readable c)))
                 items
      then TypeError
      else Ok (match last_with_value value items with
               | Some c => {| child := Some c; text := textContent_legacy c |}
               | None => retVal
               end).
Proof.
  induction items as [|c items IH]; intros retVal; [reflexivity|].
  cbn [forEach existsb last_with_value].
  destruct c as [| | | | |v cls h ch]; try reflexivity.
  change (Legacy.findChildByValue_each value retVal (VNode v cls h ch))
    with (if strict_eq v value
          then bind (Legacy.props_children_join (VNode v cls h ch))
                    (fun joined =>
                       Ok {| child := Some (VNode v cls h ch);
                             text := joined |})
          else Ok retVal).
  cbn [is_vnode negb orb has_value].
  destruct (strict_eq v value) eqn:Hv; cbn [andb].
  - destruct ch as [| | | |kids|]; try reflexivity.
    cbn [legacy_readable negb Legacy.props_children_join bind orb].
    rewrite IH. destruct (existsb _ items); [reflexivity|].
    destruct (last_with_value value items); reflexivity.
  - cbn [orb bind]. rewrite IH. destruct (existsb _ items); [reflexivity|].
    destruct (last_with_value value items); reflexivity.
Qed.

(** X21.  findChildByValue of the earlier revision, on any children.  It
    raises unless the children are an array; on an array it raises when
    a child is not a node, or when a node with the value looked up has
    children that are not an array; otherwise it returns the last node
    with that value and its joined children, or [null] and the empty
    text. *)
Theorem Legacy_findChildByValue_behaviour :
  forall (children : jsvalue) (value : option string),
    Legacy.findChildByValue children value
    = match children with
      | JArr items =>
          if existsb (fun c => negb (is_vnode c)
                               || (has_value value c
                                   && negb (legacy_readable c)))
                     items
          then TypeError
          else Ok {| child := last_with_value value items;
                     text := match last_with_value value items with
                             | Some c => textContent_legacy c
                             | None => ""
                             end |}
      | _ => TypeError
      end.
Proof.
  intros children value.
  destruct children as [| | | |items|]; try reflexivity.
  unfold Legacy.findChildByValue.
  rewrite Legacy_forEach_findChildByValue_each_any.
  destruct (existsb _ items); [reflexivity|].
  destruct (last_with_value value items); reflexivity.
Qed.

(** X22.  A widget mounted without a [value] prop offers every option at
    its first render: the state it mounts with makes FilteredChildren
    return the clone of each node of the list. *)
Theorem fresh_widget_lists_every_option :
  forall (style_option : string) (items : list jsvalue) (oc ex d : bool)
         (state : State),
    forallb is_vnode items = true ->
    Dropdown_mount (JArr items) None oc ex = Ok state ->
    FilteredChildren style_option (JArr items) state d
    = Ok (map (with_listener style_option) items).
Proof.
  intros style_option items oc ex d state Hall Hmount.
  unfold Dropdown_mount in Hmount. cbn in Hmount. injection Hmount as <-.
  apply FilteredChildren_blank_filter; [reflexivity | exact Hall].
Qed.

Lemma fresh_widget_lists_every_option_witness :
  forallb is_vnode example_options = true
  /\ Dropdown_mount (JArr example_options) None true false
     = Ok (mkState true false false "" (JStr ""))
  /\ FilteredChildren "option" (JArr example_options)
                      (mkState true false false "" (JStr "")) false
     = Ok (map (with_listener "option") example_options).
Proof.
  split; [reflexivity | split; [reflexivity|]].
  apply (fresh_widget_lists_every_option
           "option" example_options true false false
           (mkState true false false "" (JStr ""))); reflexivity.
Defined.
